(** * Query routing, fact checking and response presentation

    A shallow embedding of the routing layer of the finance/news agent team:
    [main.py] (keyword classifier, substring fact checker, gate-then-clarify
    router, CLI loop), [multi_agent_team_market_finance_news.py] (JSON
    validator, validation-first router, response presenter, CLI loop) and the
    earlier [milti_agent_team_market_finance_news.py] (validation-first
    router without JSON parsing).

    Python [str] values are modelled as [string], i.e. as the bytes of ASCII
    text: [lower] and [strip] act on the ASCII range, bytes above 127 are
    left alone.  The language model, the web search and the team runtime are
    external: a call to one of them is answered by an oracle that sees the
    whole history of the run.  [print] is the one of [rich]: [print] prints
    on a console that accepts every text, [print_on] on a console that may
    refuse one. *)

From Stdlib Require Import String Ascii List Bool ZArith Lia.
From stdpp Require Import base decidable list strings gmap pretty.

Import ListNotations.
Local Open Scope string_scope.
Local Open Scope list_scope.
Set Warnings "-register-all".

(** ** Python strings *)

Module PyStr.

(** [c.lower()] for one ASCII character. *)
Definition lower_ascii (c : ascii) : ascii :=
  let n := nat_of_ascii c in
  if (65 <=? n)%nat && (n <=? 90)%nat then ascii_of_nat (n + 32) else c.

(** [s.lower()] *)
Fixpoint lower (s : string) : string :=
  match s with
  | EmptyString => EmptyString
  | String c s' => String (lower_ascii c) (lower s')
  end.

(** [s.startswith(p)] *)
Fixpoint startswith (p s : string) : bool :=
  match p, s with
  | EmptyString, _ => true
  | String a p', String b s' => if ascii_dec a b then startswith p' s' else false
  | String _ _, EmptyString => false
  end.

(** [needle in hay] for two strings. *)
Fixpoint contains (needle hay : string) : bool :=
  startswith needle hay ||
  match hay with
  | EmptyString => false
  | String _ hay' => contains needle hay'
  end.

(** The mathematical reading of [needle in hay]. *)
Definition Contains (needle hay : string) : Prop :=
  exists pre suf, hay = pre +:+ needle +:+ suf.

(** [any(k in q for k in keywords)] *)
Definition any_in (keywords : list string) (q : string) : bool :=
  existsb (fun k => contains k q) keywords.

(** [x in [k1, k2, ...]] for a string [x]. *)
Definition one_of (x : string) (keywords : list string) : bool :=
  existsb (String.eqb x) keywords.

(** [c.isspace()] on the ASCII range: tab, LF, VT, FF, CR, the four
    separators FS GS RS US, and the blank. *)
Definition isspace (c : ascii) : bool :=
  let n := nat_of_ascii c in
  ((9 <=? n)%nat && (n <=? 13)%nat) || ((28 <=? n)%nat && (n <=? 32)%nat).

(** [s.lstrip()] *)
Fixpoint lstrip (s : string) : string :=
  match s with
  | EmptyString => EmptyString
  | String c s' => if isspace c then lstrip s' else s
  end.

(** [s.rstrip()] *)
Fixpoint rstrip (s : string) : string :=
  match s with
  | EmptyString => EmptyString
  | String c s' =>
      match rstrip s' with
      | EmptyString => if isspace c then EmptyString else String c EmptyString
      | r => String c r
      end
  end.

(** [s.strip()] *)
Definition strip (s : string) : string := rstrip (lstrip s).

(** Put one more character in front of the first piece of a split. *)
Definition push_head (c : ascii) (pieces : list string) : list string :=
  match pieces with
  | [] => [String c EmptyString]
  | h :: t => String c h :: t
  end.

(** [s.split(sep)] for a non-empty [sep]: occurrences of [sep] are found
    from the left and do not overlap.  [skip] counts the characters of an
    occurrence that are still to be passed over. *)
Fixpoint split_from (sep : string) (skip : nat) (s : string) : list string :=
  match s with
  | EmptyString => [EmptyString]
  | String c s' =>
      match skip with
      | S k => split_from sep k s'
      | O =>
          if startswith sep s
          then EmptyString :: split_from sep (String.length sep - 1) s'
          else push_head c (split_from sep 0 s')
      end
  end.

Definition split (sep s : string) : list string := split_from sep 0 s.

(** [sep.join(pieces)] *)
Fixpoint join (sep : string) (pieces : list string) : string :=
  match pieces with
  | [] => EmptyString
  | [p] => p
  | p :: rest => p +:+ sep +:+ join sep rest
  end.

(** The line feed and the paragraph separator ["\n\n"]. *)
Definition LF : ascii := ascii_of_nat 10.
Definition nl : string := String LF EmptyString.
Definition blank_line : string := String LF (String LF EmptyString).

(** Two hexadecimal digits, lower case, as in a [\xhh] escape. *)
Definition hex_digit (n : nat) : ascii :=
  if (n <? 10)%nat then ascii_of_nat (48 + n) else ascii_of_nat (87 + n).

Definition hex2 (c : ascii) : string :=
  let n := nat_of_ascii c in
  String (hex_digit (n / 16)) (String (hex_digit (n mod 16)) EmptyString).

Definition backslash : ascii := ascii_of_nat 92.

(** One character of [repr(s)], inside quotes [q]. *)
Definition repr_char (q c : ascii) : string :=
  let n := nat_of_ascii c in
  if ascii_dec c q then String backslash (String c EmptyString)
  else if (n =? 92)%nat then String backslash (String backslash EmptyString)
  else if (n =? 9)%nat then String backslash "t"
  else if (n =? 10)%nat then String backslash "n"
  else if (n =? 13)%nat then String backslash "r"
  else if (n <? 32)%nat || (n =? 127)%nat then String backslash "x" +:+ hex2 c
  else String c EmptyString.

Fixpoint repr_chars (q : ascii) (s : string) : string :=
  match s with
  | EmptyString => EmptyString
  | String c s' => repr_char q c +:+ repr_chars q s'
  end.

(** [repr(s)]: single quotes, unless the text has a single quote and no
    double quote. *)
Definition str_repr (s : string) : string :=
  let sq := ascii_of_nat 39 in
  let dq := ascii_of_nat 34 in
  let q := if contains (String sq EmptyString) s && negb (contains (String dq EmptyString) s)
           then dq else sq in
  String q (repr_chars q s) +:+ String q EmptyString.

(** Is [d] the character [c] or, when [c] is a small letter, its capital? *)
Definition casing_of (c d : ascii) : bool :=
  let m := nat_of_ascii c in
  let n := nat_of_ascii d in
  (m =? n)%nat || ((97 <=? m)%nat && (m <=? 122)%nat && (n + 32 =? m)%nat).

(** Is [variant] the text [keyword] with some of its small letters
    capitalised?  This is the reading of "the keyword in any casing"; it
    does not go through [lower]. *)
Fixpoint casing_variant (keyword variant : string) : bool :=
  match keyword, variant with
  | EmptyString, EmptyString => true
  | String c keyword', String d variant' => casing_of c d && casing_variant keyword' variant'
  | _, _ => false
  end.

(** A letter of the ASCII alphabet, and a text made of such letters. *)
Definition is_letter (c : ascii) : bool :=
  let n := nat_of_ascii c in
  ((65 <=? n)%nat && (n <=? 90)%nat) || ((97 <=? n)%nat && (n <=? 122)%nat).

Fixpoint letters (s : string) : bool :=
  match s with
  | EmptyString => true
  | String c s' => is_letter c && letters s'
  end.

(** A text of ASCII characters: on such a text [lower] and [strip] are
    the interpreter's [str.lower] and [str.strip]. *)
Fixpoint is_ascii (s : string) : bool :=
  match s with
  | EmptyString => true
  | String c s' => (nat_of_ascii c <? 128)%nat && is_ascii s'
  end.

End PyStr.

Import PyStr.

(** ** Python values, exceptions *)

Module Py.

(** What the code can observe of an instance of a class that lives outside
    the repository (a run response of the agent framework): its class name,
    its truth value, [str()] and [repr()]. *)
Record ObjInfo := {
  obj_class : string;
  obj_truthy : bool;
  obj_str : string;
  obj_repr : string
}.

(** The values that flow through the routing code.  A [float] is kept as
    its truth value and printed form; a [dict] has string keys and keeps
    insertion order; [PyObj info content] is an external object, [content]
    being its [content] attribute when it has one. *)
Inductive PyVal : Type :=
| PyNone
| PyBool (b : bool)
| PyInt (z : Z)
| PyFloat (nonzero : bool) (printed : string)
| PyStr (s : string)
| PyList (items : list PyVal)
| PyDict (entries : list (string * PyVal))
| PyObj (info : ObjInfo) (content : option PyVal).

(** [bool(v)] *)
Definition truthy (v : PyVal) : bool :=
  match v with
  | PyNone => false
  | PyBool b => b
  | PyInt z => negb (z =? 0)%Z
  | PyFloat nonzero _ => nonzero
  | PyStr s => negb (String.eqb s EmptyString)
  | PyList items => match items with [] => false | _ => true end
  | PyDict entries => match entries with [] => false | _ => true end
  | PyObj info _ => obj_truthy info
  end.

(** [type(v).__name__] *)
Definition type_name (v : PyVal) : string :=
  match v with
  | PyNone => "NoneType"
  | PyBool _ => "bool"
  | PyInt _ => "int"
  | PyFloat _ _ => "float"
  | PyStr _ => "str"
  | PyList _ => "list"
  | PyDict _ => "dict"
  | PyObj info _ => obj_class info
  end.

(** [repr(v)] *)
Fixpoint py_repr (v : PyVal) : string :=
  match v with
  | PyNone => "None"
  | PyBool true => "True"
  | PyBool false => "False"
  | PyInt z => pretty z
  | PyFloat _ printed => printed
  | PyStr s => str_repr s
  | PyList items => "[" +:+ join ", " (map py_repr items) +:+ "]"
  | PyDict entries =>
      "{" +:+ join ", " (map (fun '(k, x) => str_repr k +:+ ": " +:+ py_repr x) entries) +:+ "}"
  | PyObj info _ => obj_repr info
  end.

(** [str(v)], which is also how an f-string prints [{v}]. *)
Definition py_str (v : PyVal) : string :=
  match v with
  | PyStr s => s
  | PyObj info _ => obj_str info
  | _ => py_repr v
  end.

(** [d.get(key, default)] and [key in d] on the entries of a dict. *)
Fixpoint dict_lookup (key : string) (entries : list (string * PyVal)) : option PyVal :=
  match entries with
  | [] => None
  | (k, x) :: rest => if String.eqb k key then Some x else dict_lookup key rest
  end.

Definition dict_get (entries : list (string * PyVal)) (key : string) (default : PyVal) : PyVal :=
  match dict_lookup key entries with
  | Some x => x
  | None => default
  end.

(** [getattr(v, "content", default)]: only external objects can carry the
    attribute. *)
Definition getattr_content (v : PyVal) (default : PyVal) : PyVal :=
  match v with
  | PyObj _ (Some c) => c
  | _ => default
  end.

(** [a or b] *)
Definition py_or (a b : PyVal) : PyVal := if truthy a then a else b.

(** A raised exception: whether [except Exception] catches it
    ([KeyboardInterrupt] and [SystemExit] are not caught), its class and
    [str(e)]. *)
Record PyExn := {
  exn_is_exception : bool;
  exn_class : string;
  exn_str : string
}.

(** The [AttributeError] of [v.attr] on a value without that attribute. *)
Definition AttributeError (v : PyVal) (attr : string) : PyExn :=
  {| exn_is_exception := true;
     exn_class := "AttributeError";
     exn_str := "'" +:+ type_name v +:+ "' object has no attribute '" +:+ attr +:+ "'" |}.

(** A computation returns or raises. *)
Inductive Res (A : Type) : Type :=
| Ok (a : A)
| Raise (e : PyExn).

Arguments Ok {A} a.
Arguments Raise {A} e.

End Py.

Import Py.

(** ** Runs: external calls, console, history *)

Module Run.

(** The three external collaborators: [web_agent.run], [team.run] and
    [news_validator.run]. *)
Inductive Callee : Type := WebAgent | Team | Validator.

(** What a run does that can be seen from outside, in order. *)
Inductive Event : Type :=
| Call (callee : Callee) (arg : string)
| Print (text : string)
| Input (prompt line : string).

Definition History : Type := list Event.

(** An external call is answered from the history before the call and its
    argument; it returns a value or raises. *)
Definition Oracle : Type := History -> Callee -> string -> Res PyVal.

(** A computation extends the history and returns or raises. *)
Definition M (A : Type) : Type := History -> History * Res A.

Definition ret {A : Type} (a : A) : M A := fun h => (h, Ok a).

Definition bind {A B : Type} (m : M A) (k : A -> M B) : M B :=
  fun h =>
    match m h with
    | (h', Ok a) => k a h'
    | (h', Raise e) => (h', Raise e)
    end.

Definition lift {A : Type} (r : Res A) : M A := fun h => (h, r).

Definition call (world : Oracle) (callee : Callee) (arg : string) : M PyVal :=
  fun h => ((h ++ [Call callee arg])%list, world h callee arg).

Definition print (text : string) : M unit :=
  fun h => ((h ++ [Print text])%list, Ok tt).

(** [line = input(prompt)] when [line] is what the user types next. *)
Definition input (prompt line : string) : M string :=
  fun h => ((h ++ [Input prompt line])%list, Ok line).

(** [try: body  except Exception as e: handler(e)] *)
Definition try_except {A : Type} (body : M A) (handler : PyExn -> M A) : M A :=
  fun h =>
    match body h with
    | (h', Ok a) => (h', Ok a)
    | (h', Raise e) => if exn_is_exception e then handler e h' else (h', Raise e)
    end.

(** The events a computation adds when started from the empty history, and
    its result. *)
Definition events {A : Type} (m : M A) : History := fst (m []).
Definition result {A : Type} (m : M A) : Res A := snd (m []).

Definition is_call (callee : Callee) (e : Event) : bool :=
  match e, callee with
  | Call WebAgent _, WebAgent => true
  | Call Team _, Team => true
  | Call Validator _, Validator => true
  | _, _ => false
  end.

Definition is_print (e : Event) : bool :=
  match e with
  | Print _ => true
  | _ => false
  end.

(** How often [callee] was called in a history. *)
Definition calls (callee : Callee) (h : History) : nat :=
  length (List.filter (is_call callee) h).

(** How a finite prefix of the console input leaves a [while True] loop:
    left by [break], or waiting in [input] for the next line. *)
Inductive LoopEnd : Type := Exited | AwaitingInput.

(** A loop that has read some lines goes on with the next ones only if it
    is waiting for input: [first] is where the first lines left it, [next]
    the loop on the lines that follow. *)
Definition then_loop (first : History * Res LoopEnd) (next : History -> History * Res LoopEnd)
  : History * Res LoopEnd :=
  match first with
  | (h1, Ok AwaitingInput) => next h1
  | (h1, Ok Exited) => (h1, Ok Exited)
  | (h1, Raise e) => (h1, Raise e)
  end.

(** The [print] of the sources is the one of [rich]: it reads console
    markup in the text and raises [MarkupError] when the text holds a
    closing tag that closes nothing.  A [Console] says which texts it
    refuses, and with what exception; a refused text is not printed.
    [print] above is printing on the console that accepts every text. *)
Definition Console : Type := string -> option PyExn.

Definition print_on (console : Console) (text : string) : M unit :=
  fun h =>
    match console text with
    | None => (h ++ [Print text], Ok tt)
    | Some e => (h, Raise e)
    end.

Definition accepting : Console := fun _ => None.

(** A computation only adds to the history. *)
Definition grows {A : Type} (m : M A) : Prop :=
  forall h, exists added, fst (m h) = h ++ added.

End Run.

Import Run.

Declare Scope run_scope.
Delimit Scope run_scope with run.
Notation "x <- m ;; k" := (bind m (fun x => k))
  (at level 100, m at next level, right associativity) : run_scope.
Notation "m ;;; k" := (bind m (fun _ => k))
  (at level 100, right associativity) : run_scope.
Local Open Scope run_scope.

(** ** [main.py]: classifier, fact checker, gate-then-clarify router *)

Module Simple.

Definition geopolitical_keywords : list string :=
  ["trump"; "biden"; "war"; "attack"; "venezuela";
   "election"; "sanction"; "geopolitics"; "conflict"].

Definition ticker_keywords : list string :=
  ["amzn"; "msft"; "googl"; "meta"; "snap";
   "ttwo"; "ea"; "atvi"; "nvda"; "amd"; "jpm"; "bac"].

(** [QueryClassifier.classify] *)
Definition classify (query : string) : string :=
  let q := lower query in
  if any_in geopolitical_keywords q then "fact_check"
  else if any_in ticker_keywords q then "finance_only"
  else "mixed".

(** [QueryClassifier.classify] over the lower-casing of the interpreter:
    [str_lower] stands for [str.lower] on all of Unicode, of which [lower]
    is the ASCII part.  [classify] is [classify_with lower]. *)
Definition classify_with (str_lower : string -> string) (query : string) : string :=
  let q := str_lower query in
  if any_in geopolitical_keywords q then "fact_check"
  else if any_in ticker_keywords q then "finance_only"
  else "mixed".

(** The dict [{"status": ..., "reason": ...}] returned by the fact checker. *)
Record FactCheckResult := {
  status : string;
  reason : string
}.

(** [FactChecker.check], from [search_results] on (lines 70-77). *)
Definition verdict (search_results : PyVal) : FactCheckResult :=
  let text := lower (py_str search_results) in
  if negb (truthy search_results) || contains "no results" text then
    {| status := "false"; reason := "No evidence found in recent reports." |}
  else if contains "uncertain" text || contains "rumor" text || contains "unverified" text then
    {| status := "uncertain"; reason := "Conflicting or insufficient evidence." |}
  else
    {| status := "verified"; reason := "Evidence found in multiple sources." |}.

(** The status as the substring rules alone give it, the truth value of the
    output left out: the reading of the fact checker to compare [verdict]
    with. *)
Definition status_by_text (text : string) : string :=
  if contains "no results" text then "false"
  else if contains "uncertain" text || contains "rumor" text || contains "unverified" text
  then "uncertain"
  else "verified".

Section Router.

Variable world : Oracle.

(** [FactChecker.check] *)
Definition check (query : string) : M FactCheckResult :=
  search_results <- call world WebAgent query ;;
  ret (verdict search_results).

(** [QueryRouter.run_agents] *)
Definition run_agents (query : string) : M PyVal :=
  response <- call world Team query ;;
  match response with
  | PyObj _ (Some content) => ret content
  | PyDict entries =>
      match dict_lookup "content" entries with
      | Some content => ret content
      | None => ret (PyStr (py_str response))
      end
  | PyStr s => ret (PyStr s)
  | _ => ret (PyStr (py_str response))
  end.

Definition no_evidence_message (check_result : FactCheckResult) : string :=
  "⚠️ No recent reports confirm this. " +:+ reason check_result +:+
  " Would you like me to run a hypothetical analysis instead?".

Definition not_verified_message (check_result : FactCheckResult) : string :=
  "🤔 I couldn’t fully verify this. " +:+ reason check_result +:+
  " Should I proceed hypothetically?".

(** [QueryRouter._handle_fact_check] *)
Definition _handle_fact_check (query : string) (check_result : FactCheckResult) : M PyVal :=
  if String.eqb (status check_result) "false" then
    ret (PyStr (no_evidence_message check_result))
  else if String.eqb (status check_result) "uncertain" then
    ret (PyStr (not_verified_message check_result))
  else run_agents query.

(** [QueryRouter.route] *)
Definition route (query : string) : M PyVal :=
  let category := classify query in
  if String.eqb category "finance_only" then run_agents query
  else if String.eqb category "fact_check" then
    check_result <- check query ;;
    _handle_fact_check query check_result
  else
    check_result <- check query ;;
    if String.eqb (status check_result) "verified" then run_agents query
    else _handle_fact_check query check_result.

(** The [while True] loop of [finance_team], fed the lines the user types. *)
Fixpoint finance_team_loop (lines : list string) : M LoopEnd :=
  match lines with
  | [] => ret AwaitingInput
  | line :: rest =>
      query <- input "😎 User : " line ;;
      if one_of (lower query) ["exit"; "quit"] then
        print "👋 Exiting Finance Team." ;;;
        ret Exited
      else
        response <- route query ;;
        print (nl +:+ "🧠 Response:" +:+ nl +:+ py_str response +:+ nl) ;;;
        finance_team_loop rest
  end.

(** The choice of a session at start-up (lines 156-162; the same lines open
    [validated_finance_team] in the two other files): [new] is the answer
    to "Do you want to start a new session?", [existing_sessions] what the
    storage holds for the user. *)
Definition select_session (new : bool) (existing_sessions : list string) : option string :=
  if negb new then
    match existing_sessions with
    | first :: _ => Some first
    | [] => None
    end
  else None.

(** [finance_team]: the greeting, the session line and the loop.
    [team_session_id] is [agent_team.session_id], read when no stored
    session was chosen. *)
Definition finance_team (new : bool) (existing_sessions : list string)
    (team_session_id : PyVal) (lines : list string) : M LoopEnd :=
  let session_id := select_session new existing_sessions in
  print "You are about to chat with the Finance Team!" ;;;
  match session_id with
  | None => print ("Started new Session: " +:+ py_str team_session_id +:+ nl)
  | Some session_id => print ("Continuing Session: " +:+ session_id +:+ nl)
  end ;;;
  finance_team_loop lines.

End Router.

End Simple.

(** ** A decoder for JSON text

    [json.loads] belongs to Python's standard library.  The general results
    below hold for any decoder; this one follows the library's scanner on
    byte strings and is used to run the router on concrete validator
    outputs.  A number with a fraction or an exponent becomes a [PyFloat]
    that prints as its lexeme (the library prints the shortest form of the
    float, 1.5 for 1.50), an integer may have any number of digits (the
    library refuses more than 4300), and a [\u] escape is stored as the
    UTF-8 bytes of its code point. *)

Module Json.

Definition is_ws (c : ascii) : bool :=
  let n := nat_of_ascii c in
  (n =? 32)%nat || (n =? 9)%nat || (n =? 10)%nat || (n =? 13)%nat.

Fixpoint skip_ws (s : string) : string :=
  match s with
  | EmptyString => EmptyString
  | String c s' => if is_ws c then skip_ws s' else s
  end.

Fixpoint drop_chars (n : nat) (s : string) : string :=
  match n, s with
  | O, _ => s
  | S n', String _ s' => drop_chars n' s'
  | S _, EmptyString => EmptyString
  end.

Definition is_digit (c : ascii) : bool :=
  let n := nat_of_ascii c in (48 <=? n)%nat && (n <=? 57)%nat.

(** The longest prefix of digits, and what follows it. *)
Fixpoint span_digits (s : string) : string * string :=
  match s with
  | EmptyString => (EmptyString, EmptyString)
  | String c s' =>
      if is_digit c then let '(d, r) := span_digits s' in (String c d, r)
      else (EmptyString, s)
  end.

Fixpoint digits_value (acc : Z) (s : string) : Z :=
  match s with
  | EmptyString => acc
  | String c s' => digits_value (10 * acc + Z.of_nat (nat_of_ascii c - 48))%Z s'
  end.

Fixpoint all_zero (s : string) : bool :=
  match s with
  | EmptyString => true
  | String c s' => (nat_of_ascii c =? 48)%nat && all_zero s'
  end.

(** The integer part: an optional minus sign, then a single 0 or a run of
    digits that starts with a non-zero digit.  Returns sign, digits, rest. *)
Definition scan_int (s : string) : option (bool * string * string) :=
  let '(neg, s1) :=
    match s with
    | String "-" s' => (true, s')
    | _ => (false, s)
    end in
  match s1 with
  | String "0" r => Some (neg, "0", r)
  | String c _ =>
      if is_digit c then let '(d, r) := span_digits s1 in Some (neg, d, r) else None
  | EmptyString => None
  end.

(** The optional fraction: a dot and at least one digit. *)
Definition scan_frac (s : string) : string * string :=
  match s with
  | String "." s' =>
      match span_digits s' with
      | (EmptyString, _) => (EmptyString, s)
      | (d, r) => (String "." d, r)
      end
  | _ => (EmptyString, s)
  end.

(** The optional exponent: e or E, an optional sign, at least one digit. *)
Definition scan_exp (s : string) : string * string :=
  match s with
  | String e s' =>
      if (nat_of_ascii e =? 101)%nat || (nat_of_ascii e =? 69)%nat then
        let '(sign, s2) :=
          match s' with
          | String "-" r => ("-", r)
          | String "+" r => ("+", r)
          | _ => (EmptyString, s')
          end in
        match span_digits s2 with
        | (EmptyString, _) => (EmptyString, s)
        | (d, r) => (String e sign +:+ d, r)
        end
      else (EmptyString, s)
  | EmptyString => (EmptyString, s)
  end.

Definition scan_number (s : string) : option (PyVal * string) :=
  match scan_int s with
  | None => None
  | Some (neg, d, r) =>
      let '(frac, r1) := scan_frac r in
      let '(exp, r2) := scan_exp r1 in
      let sign := if neg then "-" else EmptyString in
      match frac, exp with
      | EmptyString, EmptyString =>
          Some (PyInt (if neg then - digits_value 0 d else digits_value 0 d)%Z, r2)
      | _, _ =>
          Some (PyFloat (negb (all_zero d && all_zero (drop_chars 1 frac)))
                        (sign +:+ d +:+ frac +:+ exp), r2)
      end
  end.

Definition hex_value (c : ascii) : option N :=
  let n := nat_of_ascii c in
  if (48 <=? n)%nat && (n <=? 57)%nat then Some (N.of_nat (n - 48))
  else if (97 <=? n)%nat && (n <=? 102)%nat then Some (N.of_nat (n - 87))
  else if (65 <=? n)%nat && (n <=? 70)%nat then Some (N.of_nat (n - 55))
  else None.

(** Four hexadecimal digits. *)
Definition hex4 (s : string) : option (N * string) :=
  match s with
  | String a (String b (String c (String d r))) =>
      match hex_value a, hex_value b, hex_value c, hex_value d with
      | Some x, Some y, Some z, Some w => Some (((x * 16 + y) * 16 + z) * 16 + w, r)%N
      | _, _, _, _ => None
      end
  | _ => None
  end.

Definition byte (n : N) : ascii := ascii_of_N n.

(** The UTF-8 bytes of a code point. *)
Definition utf8 (cp : N) : string :=
  if (cp <? 128)%N then String (byte cp) EmptyString
  else if (cp <? 2048)%N then
    String (byte (192 + cp / 64)) (String (byte (128 + cp mod 64)) EmptyString)
  else if (cp <? 65536)%N then
    String (byte (224 + cp / 4096))
      (String (byte (128 + (cp / 64) mod 64)) (String (byte (128 + cp mod 64)) EmptyString))
  else
    String (byte (240 + cp / 262144))
      (String (byte (128 + (cp / 4096) mod 64))
         (String (byte (128 + (cp / 64) mod 64)) (String (byte (128 + cp mod 64)) EmptyString))).

Definition simple_escape (e : ascii) : option ascii :=
  let n := nat_of_ascii e in
  if (n =? 34)%nat || (n =? 92)%nat || (n =? 47)%nat then Some e
  else if (n =? 98)%nat then Some (ascii_of_nat 8)
  else if (n =? 102)%nat then Some (ascii_of_nat 12)
  else if (n =? 110)%nat then Some (ascii_of_nat 10)
  else if (n =? 114)%nat then Some (ascii_of_nat 13)
  else if (n =? 116)%nat then Some (ascii_of_nat 9)
  else None.

Definition prepend (chunk : string) (r : option (string * string)) : option (string * string) :=
  match r with
  | Some (text, rest) => Some (chunk +:+ text, rest)
  | None => None
  end.

(** The body of a string literal, after its opening quote (strict mode:
    a raw control character is an error). *)
Fixpoint scan_string (fuel : nat) (s : string) : option (string * string) :=
  match fuel with
  | O => None
  | S fuel' =>
      match s with
      | EmptyString => None
      | String c rest =>
          let n := nat_of_ascii c in
          if (n =? 34)%nat then Some (EmptyString, rest)
          else if (n <? 32)%nat then None
          else if (n =? 92)%nat then
            match rest with
            | EmptyString => None
            | String "u" r1 =>
                match hex4 r1 with
                | None => None
                | Some (hi, r2) =>
                    if (55296 <=? hi)%N && (hi <=? 56319)%N && startswith (String backslash "u") r2 then
                      match hex4 (drop_chars 2 r2) with
                      | None => None
                      | Some (lo, r3) =>
                          if (56320 <=? lo)%N && (lo <=? 57343)%N then
                            prepend (utf8 (65536 + (hi - 55296) * 1024 + (lo - 56320))%N)
                                    (scan_string fuel' r3)
                          else prepend (utf8 hi) (scan_string fuel' r2)
                      end
                    else prepend (utf8 hi) (scan_string fuel' r2)
                end
            | String e r1 =>
                match simple_escape e with
                | Some x => prepend (String x EmptyString) (scan_string fuel' r1)
                | None => None
                end
            end
          else prepend (String c EmptyString) (scan_string fuel' rest)
      end
  end.

(** [dict(pairs)]: a repeated key keeps its place and takes the later value. *)
Fixpoint dict_set (key : string) (x : PyVal) (entries : list (string * PyVal))
  : list (string * PyVal) :=
  match entries with
  | [] => [(key, x)]
  | (k, y) :: rest =>
      if String.eqb k key then (k, x) :: rest else (k, y) :: dict_set key x rest
  end.

(** The scanner: one value at the head of [s], and what follows it.
    [scan_items] reads the rest of an array from the start of an item,
    [scan_pairs] the rest of an object from the opening quote of a key. *)
Fixpoint scan_once (fuel : nat) (s : string) : option (PyVal * string) :=
  match fuel with
  | O => None
  | S fuel' =>
      match s with
      | EmptyString => None
      | String c rest =>
          let n := nat_of_ascii c in
          if (n =? 34)%nat then
            match scan_string fuel' rest with
            | Some (text, r) => Some (PyStr text, r)
            | None => None
            end
          else if (n =? 123)%nat then
            match skip_ws rest with
            | String "}" r => Some (PyDict [], r)
            | r => scan_pairs fuel' r []
            end
          else if (n =? 91)%nat then
            match skip_ws rest with
            | String "]" r => Some (PyList [], r)
            | r => scan_items fuel' r []
            end
          else if startswith "null" s then Some (PyNone, drop_chars 4 s)
          else if startswith "true" s then Some (PyBool true, drop_chars 4 s)
          else if startswith "false" s then Some (PyBool false, drop_chars 5 s)
          else
            match scan_number s with
            | Some r => Some r
            | None =>
                if startswith "NaN" s then Some (PyFloat true "nan", drop_chars 3 s)
                else if startswith "Infinity" s then Some (PyFloat true "inf", drop_chars 8 s)
                else if startswith "-Infinity" s then Some (PyFloat true "-inf", drop_chars 9 s)
                else None
            end
      end
  end
with scan_items (fuel : nat) (s : string) (values : list PyVal) : option (PyVal * string) :=
  match fuel with
  | O => None
  | S fuel' =>
      match scan_once fuel' s with
      | None => None
      | Some (value, r) =>
          match skip_ws r with
          | String "]" r' => Some (PyList (values ++ [value])%list, r')
          | String "," r' => scan_items fuel' (skip_ws r') (values ++ [value])%list
          | _ => None
          end
      end
  end
with scan_pairs (fuel : nat) (s : string) (pairs : list (string * PyVal))
  : option (PyVal * string) :=
  match fuel with
  | O => None
  | S fuel' =>
      match s with
      | String c r0 =>
          if (nat_of_ascii c =? 34)%nat then
            match scan_string fuel' r0 with
            | None => None
            | Some (key, r1) =>
                match skip_ws r1 with
                | String ":" r2 =>
                    match scan_once fuel' (skip_ws r2) with
                    | None => None
                    | Some (value, r3) =>
                        match skip_ws r3 with
                        | String "}" r4 => Some (PyDict (dict_set key value pairs), r4)
                        | String "," r4 => scan_pairs fuel' (skip_ws r4) (dict_set key value pairs)
                        | _ => None
                        end
                    end
                | _ => None
                end
            end
          else None
      | EmptyString => None
      end
  end.

(** [json.loads(text)]: [None] when the library raises. *)
Definition loads (text : string) : option PyVal :=
  match scan_once (S (String.length text)) (skip_ws text) with
  | Some (value, rest) =>
      match skip_ws rest with
      | EmptyString => Some value
      | _ => None
      end
  | None => None
  end.

End Json.

(** ** [multi_agent_team_market_finance_news.py]: validation first *)

Module Structured.

(** [text.strip()] on whatever [text] is: only a [str] has the method. *)
Definition strip_method (text : PyVal) : Res string :=
  match text with
  | PyStr s => Ok (strip s)
  | _ => Raise (AttributeError text "strip")
  end.

(** The [for p in parts] loop of [present_response], with its two
    accumulators [seen] and [cleaned]. *)
Fixpoint dedupe_loop (parts : list string) (seen : gset string) (cleaned : list string)
  : list string :=
  match parts with
  | [] => cleaned
  | p :: rest =>
      if decide (p ∈ seen) then dedupe_loop rest seen cleaned
      else dedupe_loop rest ({[p]} ∪ seen) (cleaned ++ [p])%list
  end.

(** The segments of [parts] that are not in [seen], each where it first
    occurs: what the loop adds to [cleaned]. *)
Fixpoint first_occurrences (seen : gset string) (parts : list string) : list string :=
  match parts with
  | [] => []
  | p :: rest =>
      if decide (p ∈ seen) then first_occurrences seen rest
      else p :: first_occurrences ({[p]} ∪ seen) rest
  end.

(** Does the text end in a line feed? *)
Fixpoint ends_with_LF (s : string) : bool :=
  match s with
  | EmptyString => false
  | String c EmptyString => if ascii_dec c LF then true else false
  | String _ s' => ends_with_LF s'
  end.

(** Segments that [split] gives back after a [join]: none holds a blank
    line, and none but the last ends in a line feed. *)
Fixpoint separable (pieces : list string) : Prop :=
  match pieces with
  | [] => True
  | p :: rest =>
      contains blank_line p = false /\
      match rest with
      | [] => True
      | _ :: _ => ends_with_LF p = false /\ separable rest
      end
  end.

(** [present_response], from the stripped text on (lines 125-131). *)
Definition present_text (text : string) : string :=
  let parts := split blank_line text in
  join blank_line (dedupe_loop parts ∅ []).

(** [present_response] *)
Definition present_response (team_response : PyVal) : Res string :=
  let text :=
    py_or (getattr_content team_response PyNone)
          (match team_response with
           | PyDict entries => dict_get entries "content" PyNone
           | _ => PyStr (py_str team_response)
           end) in
  match strip_method text with
  | Ok text' => Ok (present_text text')
  | Raise e => Raise e
  end.

(** [val_json.get(key, default)]: only a [dict] has the method. *)
Definition get_method (val_json : PyVal) (key : string) (default : PyVal) : Res PyVal :=
  match val_json with
  | PyDict entries => Ok (dict_get entries key default)
  | _ => Raise (AttributeError val_json "get")
  end.

Definition indent : string := "        ".

(** The f-string [enhanced_prompt] of [ValidationRouter.route]. *)
Definition enhanced_prompt (query : string) (val_status val_summary val_sources : PyVal)
  : string :=
  nl +:+
  indent +:+ "ORIGINAL USER QUERY: " +:+ query +:+ nl +:+
  nl +:+
  indent +:+ "FACT-CHECK STATUS: " +:+ py_str val_status +:+ nl +:+
  indent +:+ "FACT-CHECK SUMMARY: " +:+ py_str val_summary +:+ nl +:+
  indent +:+ "SOURCES: " +:+ py_str val_sources +:+ nl +:+
  nl +:+
  indent +:+ "TEAM INSTRUCTIONS:" +:+ nl +:+
  indent +:+ "Based on the validated context above, provide a comprehensive financial analysis." +:+ nl +:+
  indent +:+ "Use your own research + financial data, but do NOT repeat JSON blocks." +:+ nl +:+
  indent +:+ "Structure your response with clear sections and confidence indicators." +:+ nl +:+
  indent.

Definition validator_request (query : string) : string :=
  "Please fact-check this query and provide enhanced context in JSON: " +:+ query.

(** The history of [route] up to the team call: the two progress lines
    around the validator call. *)
Definition validated (h : History) (query : string) : History :=
  h ++ [Print "Validating news claims...";
        Call Validator (validator_request query);
        Print "Validation complete. Proceeding with analysis..."].

Section Router.

(** [json.loads]: the decoded value, or [None] when it raises. *)
Variable json_loads : string -> option PyVal.

Variable world : Oracle.

(** [safe_parse_json]; [json.loads] raises [TypeError] on anything that is
    not text. *)
Definition safe_parse_json (text : PyVal) : PyVal :=
  match text with
  | PyStr s =>
      match json_loads s with
      | Some value => value
      | None => PyDict []
      end
  | _ => PyDict []
  end.

(** [ValidationRouter.route] *)
Definition route (query : string) : M string :=
  print "Validating news claims..." ;;;
  validation_result <- call world Validator (validator_request query) ;;
  print "Validation complete. Proceeding with analysis..." ;;;
  let val_json :=
    safe_parse_json
      (getattr_content validation_result (PyStr (py_str validation_result))) in
  val_summary <- lift (get_method val_json "summary" (PyStr EmptyString)) ;;
  val_sources <- lift (get_method val_json "sources" (PyList [])) ;;
  val_status <- lift (get_method val_json "status" (PyStr "uncertain")) ;;
  team_response <- call world Team (enhanced_prompt query val_status val_summary val_sources) ;;
  lift (present_response team_response).

Definition rule : string := "------------------------------------------------------------".

(** One turn of the loop inside [try: ... except Exception as e: ...]. *)
Definition turn (user_query : string) : M unit :=
  try_except
    (print (nl +:+ "🔎 Processing: " +:+ user_query) ;;;
     response <- route user_query ;;
     print (nl +:+ "📑 **Complete Analysis:**" +:+ nl +:+ response +:+ nl) ;;;
     print rule)
    (fun e =>
       print ("❌ Error: " +:+ exn_str e) ;;;
       print ("Please try again with a different query." +:+ nl)).

(** The [while True] loop of [validated_finance_team], fed the lines the
    user types. *)
Fixpoint validated_finance_team_loop (lines : list string) : M LoopEnd :=
  match lines with
  | [] => ret AwaitingInput
  | line :: rest =>
      user_query <- input "Ask the Validated Finance Team: " line ;;
      if decide (lower user_query ∈ ({["exit"; "quit"; "bye"]} : gset string)) then
        print "👋 Thanks for using Validated Finance Team!" ;;;
        ret Exited
      else if String.eqb (strip user_query) EmptyString then validated_finance_team_loop rest
      else turn user_query ;;; validated_finance_team_loop rest
  end.

(** [validated_finance_team]: the start-up lines, the session line, the
    example queries and the loop. *)
Definition validated_finance_team (new : bool) (existing_sessions : list string)
    (team_session_id : PyVal) (lines : list string) : M LoopEnd :=
  let session_id := Simple.select_session new existing_sessions in
  print "✅ Validated Finance Team Ready!" ;;;
  print "Features: News fact-checking + Financial analysis" ;;;
  match session_id with
  | None => print ("Started New Session: " +:+ py_str team_session_id +:+ nl)
  | Some session_id => print ("Continuing Session: " +:+ session_id +:+ nl)
  end ;;;
  print "💡 Example queries:" ;;;
  print "  • 'Impact of Tesla recall on stock price this week'" ;;;
  print "  • 'Fed rate hike rumors impact on tech stocks'" ;;;
  print "  • 'Nvidia AI chip shortage causing stock surge'" ;;;
  print ("  • 'Apple earnings beat expectations last quarter'" +:+ nl) ;;;
  validated_finance_team_loop lines.

End Router.

(** The router and the loop once more, printing on a console that may
    refuse a text. *)
Section OnConsole.

Variable console : Console.
Variable json_loads : string -> option PyVal.
Variable world : Oracle.

(** [ValidationRouter.route] *)
Definition route_on (query : string) : M string :=
  print_on console "Validating news claims..." ;;;
  validation_result <- call world Validator (validator_request query) ;;
  print_on console "Validation complete. Proceeding with analysis..." ;;;
  let val_json :=
    safe_parse_json json_loads
      (getattr_content validation_result (PyStr (py_str validation_result))) in
  val_summary <- lift (get_method val_json "summary" (PyStr EmptyString)) ;;
  val_sources <- lift (get_method val_json "sources" (PyList [])) ;;
  val_status <- lift (get_method val_json "status" (PyStr "uncertain")) ;;
  team_response <- call world Team (enhanced_prompt query val_status val_summary val_sources) ;;
  lift (present_response team_response).

(** One turn of the loop inside [try: ... except Exception as e: ...]. *)
Definition turn_on (user_query : string) : M unit :=
  try_except
    (print_on console (nl +:+ "🔎 Processing: " +:+ user_query) ;;;
     response <- route_on user_query ;;
     print_on console (nl +:+ "📑 **Complete Analysis:**" +:+ nl +:+ response +:+ nl) ;;;
     print_on console rule)
    (fun e =>
       print_on console ("❌ Error: " +:+ exn_str e) ;;;
       print_on console ("Please try again with a different query." +:+ nl)).

(** The [while True] loop of [validated_finance_team]. *)
Fixpoint validated_finance_team_loop_on (lines : list string) : M LoopEnd :=
  match lines with
  | [] => ret AwaitingInput
  | line :: rest =>
      user_query <- input "Ask the Validated Finance Team: " line ;;
      if decide (lower user_query ∈ ({["exit"; "quit"; "bye"]} : gset string)) then
        print_on console "👋 Thanks for using Validated Finance Team!" ;;;
        ret Exited
      else if String.eqb (strip user_query) EmptyString then
        validated_finance_team_loop_on rest
      else turn_on user_query ;;; validated_finance_team_loop_on rest
  end.

End OnConsole.

End Structured.

(** ** [milti_agent_team_market_finance_news.py]: the earlier
    validation-first router, which passes the validator's answer on as it
    is *)

Module Earlier.

Definition validator_request (query : string) : string :=
  "Please fact-check this query and provide enhanced context: " +:+ query.

Definition indent : string := "        ".

(** The f-string [enhanced_prompt]; its blank lines carry the indentation. *)
Definition enhanced_prompt (query : string) (validation_result : PyVal) : string :=
  nl +:+
  indent +:+ "ORIGINAL USER QUERY: " +:+ query +:+ nl +:+
  indent +:+ nl +:+
  indent +:+ "VALIDATION RESULTS:" +:+ nl +:+
  indent +:+ py_str validation_result +:+ nl +:+
  indent +:+ nl +:+
  indent +:+ "TEAM INSTRUCTIONS:" +:+ nl +:+
  indent +:+ "Based on the fact-check results above, provide comprehensive financial analysis." +:+ nl +:+
  indent +:+ "Use the enhanced/corrected context from the validator to ensure accuracy." +:+ nl +:+
  indent +:+ "Combine recent news research with concrete financial data and metrics." +:+ nl +:+
  indent +:+ "Structure your response with clear sections and confidence indicators." +:+ nl +:+
  indent.

Section Router.

Variable world : Oracle.

(** [ValidationRouter.route] *)
Definition route (query : string) : M PyVal :=
  print "🔍 Validating news claims..." ;;;
  validation_result <- call world Validator (validator_request query) ;;
  print "✅ Validation complete. Proceeding with analysis..." ;;;
  call world Team (enhanced_prompt query validation_result).

Definition rule : string := "------------------------------------------------------------".

(** One turn of the loop inside [try: ... except Exception as e: ...]. *)
Definition turn (user_query : string) : M unit :=
  try_except
    (print (nl +:+ "📊 Processing: " +:+ user_query) ;;;
     response <- route user_query ;;
     print (nl +:+ "📈 **Complete Analysis:**" +:+ nl +:+ py_str response +:+ nl) ;;;
     print rule)
    (fun e =>
       print ("❌ Error: " +:+ exn_str e) ;;;
       print ("Please try again with a different query." +:+ nl)).

(** The [while True] loop of [validated_finance_team], fed the lines the
    user types. *)
Fixpoint validated_finance_team_loop (lines : list string) : M LoopEnd :=
  match lines with
  | [] => ret AwaitingInput
  | line :: rest =>
      user_query <- input "💰 Ask the Validated Finance Team: " line ;;
      if decide (lower user_query ∈ ({["exit"; "quit"; "bye"]} : gset string)) then
        print "👋 Thanks for using Validated Finance Team!" ;;;
        ret Exited
      else if String.eqb (strip user_query) EmptyString then validated_finance_team_loop rest
      else turn user_query ;;; validated_finance_team_loop rest
  end.

(** [validated_finance_team]: the start-up lines, the session line, the
    example queries and the loop. *)
Definition validated_finance_team (new : bool) (existing_sessions : list string)
    (team_session_id : PyVal) (lines : list string) : M LoopEnd :=
  let session_id := Simple.select_session new existing_sessions in
  print "🚀 Validated Finance Team Ready!" ;;;
  print "📋 Features: News fact-checking + Financial analysis" ;;;
  match session_id with
  | None => print ("📝 Started New Session: " +:+ py_str team_session_id +:+ nl)
  | Some session_id => print ("📂 Continuing Session: " +:+ session_id +:+ nl)
  end ;;;
  print "💡 Example queries:" ;;;
  print "  • 'Impact of Trump attacking Venezuela on banking stocks'" ;;;
  print "  • 'Tesla recall affecting stock price this week'" ;;;
  print "  • 'Fed rate hike rumors impact on tech stocks'" ;;;
  print "  • 'Nvidia AI chip shortage causing stock surge'" ;;;
  print ("  • 'Apple earnings beat expectations last quarter'" +:+ nl) ;;;
  validated_finance_team_loop lines.

End Router.

(** The router and the loop once more, printing on a console that may
    refuse a text. *)
Section OnConsole.

Variable console : Console.
Variable world : Oracle.

(** [ValidationRouter.route] *)
Definition route_on (query : string) : M PyVal :=
  print_on console "🔍 Validating news claims..." ;;;
  validation_result <- call world Validator (validator_request query) ;;
  print_on console "✅ Validation complete. Proceeding with analysis..." ;;;
  call world Team (enhanced_prompt query validation_result).

(** One turn of the loop inside [try: ... except Exception as e: ...]. *)
Definition turn_on (user_query : string) : M unit :=
  try_except
    (print_on console (nl +:+ "📊 Processing: " +:+ user_query) ;;;
     response <- route_on user_query ;;
     print_on console (nl +:+ "📈 **Complete Analysis:**" +:+ nl +:+ py_str response +:+ nl) ;;;
     print_on console rule)
    (fun e =>
       print_on console ("❌ Error: " +:+ exn_str e) ;;;
       print_on console ("Please try again with a different query." +:+ nl)).

(** The [while True] loop of [validated_finance_team]. *)
Fixpoint validated_finance_team_loop_on (lines : list string) : M LoopEnd :=
  match lines with
  | [] => ret AwaitingInput
  | line :: rest =>
      user_query <- input "💰 Ask the Validated Finance Team: " line ;;
      if decide (lower user_query ∈ ({["exit"; "quit"; "bye"]} : gset string)) then
        print_on console "👋 Thanks for using Validated Finance Team!" ;;;
        ret Exited
      else if String.eqb (strip user_query) EmptyString then
        validated_finance_team_loop_on rest
      else turn_on user_query ;;; validated_finance_team_loop_on rest
  end.

End OnConsole.

End Earlier.

(** ** Scripted collaborators, to run the code on concrete inputs *)

Module Scenario.

(** A run response of the agent framework carrying [content]. *)
Definition run_response (content : PyVal) : PyVal :=
  PyObj {| obj_class := "RunResponse";
           obj_truthy := true;
           obj_str := "RunResponse(content=" +:+ py_repr content +:+ ")";
           obj_repr := "RunResponse(content=" +:+ py_repr content +:+ ")" |}
        (Some content).

(** Collaborators that give the same answer whatever they are asked. *)
Definition scripted (web team validator : Res PyVal) : Oracle :=
  fun _ callee _ =>
    match callee with
    | WebAgent => web
    | Team => team
    | Validator => validator
    end.

(** A search that finds nothing, a team that reports, a validator whose
    answer is [answer]. *)
Definition answering (answer : string) : Oracle :=
  scripted (Ok (run_response (PyStr "No results found.")))
           (Ok (run_response (PyStr "Report.")))
           (Ok (run_response (PyStr answer))).

(** A failure of a collaborator that [except Exception] catches. *)
Definition quota_error : PyExn :=
  {| exn_is_exception := true; exn_class := "RuntimeError"; exn_str := "quota exceeded" |}.

(** A validator answer in the mandated format: a JSON object with a
    status, a summary and one source. *)
Definition quoted (s : string) : string :=
  String (ascii_of_nat 34) s +:+ String (ascii_of_nat 34) EmptyString.

Definition confirmed_answer : string :=
  "{" +:+ quoted "status" +:+ ": " +:+ quoted "confirmed" +:+ ", " +:+
  quoted "summary" +:+ ": " +:+ quoted "Recall confirmed." +:+ ", " +:+
  quoted "sources" +:+ ": [" +:+ quoted "Reuters (2025-01-10)" +:+ "]}".

(** A console in the manner of [rich], which raises [MarkupError] on a
    closing tag that closes nothing: this one refuses every text holding
    the tag [[/b]], always with the same error (the library's message names
    the position of the tag in the text). *)
Definition markup_error : PyExn :=
  {| exn_is_exception := true;
     exn_class := "MarkupError";
     exn_str := "closing tag '[/b]' at position 0 doesn't match any open tag" |}.

Definition strict_console : Console :=
  fun text => if contains "[/b]" text then Some markup_error else None.

(** The queries of the end-to-end scenarios. *)
Definition chips_query : string :=
  "What's the latest on AI chip manufacturers such as NVDA and AMD?".

Definition venezuela_query : string :=
  "What is the impact of recent Donald Trump decisions to attack Venezuela on banking stocks?".

End Scenario.

(** * Results *)

(** ** Facts about Python strings *)

Section StringFacts.

Lemma lower_app (a b : string) : lower (a +:+ b) = lower a +:+ lower b.
Proof.
  induction a as [|c a IH]; simpl; [reflexivity | now rewrite IH].
Qed.

Lemma lower_ascii_idem (c : ascii) : lower_ascii (lower_ascii c) = lower_ascii c.
Proof.
  destruct c as [[] [] [] [] [] [] [] []]; reflexivity.
Qed.

Lemma lower_idem (s : string) : lower (lower s) = lower s.
Proof.
  induction s as [|c s IH]; simpl; [reflexivity|].
  now rewrite lower_ascii_idem, IH.
Qed.

Lemma startswith_spec (p s : string) :
  startswith p s = true <-> exists suf, s = p +:+ suf.
Proof.
  revert s; induction p as [|a p IH]; intros s; simpl.
  - split; [intros _; now exists s | reflexivity].
  - destruct s as [|b s].
    + split; [discriminate | intros [suf H]; discriminate].
    + destruct (ascii_dec a b) as [->|Hne].
      * rewrite IH. split; intros [suf H]; exists suf.
        -- now rewrite H.
        -- now injection H.
      * split; [discriminate | intros [suf H]; injection H; congruence].
Qed.

Lemma contains_spec (needle hay : string) :
  contains needle hay = true <-> Contains needle hay.
Proof.
  unfold Contains. induction hay as [|c hay IH]; simpl.
  - rewrite orb_false_r, startswith_spec. split.
    + intros [suf H]. exists EmptyString, suf. exact H.
    + intros [pre [suf H]]. destruct pre; simpl in H.
      * now exists suf.
      * discriminate.
  - rewrite orb_true_iff, startswith_spec, IH. split.
    + intros [[suf H] | [pre [suf H]]].
      * exists EmptyString, suf. exact H.
      * exists (String c pre), suf. simpl. now rewrite H.
    + intros [pre [suf H]]. destruct pre as [|d pre]; simpl in H.
      * left. now exists suf.
      * right. exists pre, suf. now injection H.
Qed.

Lemma contains_false (needle hay : string) :
  contains needle hay = false <-> ~ Contains needle hay.
Proof.
  rewrite <- contains_spec. destruct (contains needle hay); split; intros; congruence.
Qed.

Lemma any_in_spec (keywords : list string) (q : string) :
  any_in keywords q = true <-> exists k, In k keywords /\ Contains k q.
Proof.
  unfold any_in. rewrite existsb_exists.
  split; intros [k [Hk Hc]]; exists k; split; auto; now apply contains_spec.
Qed.

Lemma any_in_false (keywords : list string) (q : string) :
  any_in keywords q = false <-> ~ exists k, In k keywords /\ Contains k q.
Proof.
  rewrite <- any_in_spec. destruct (any_in keywords q); split; intros; congruence.
Qed.

(** An occurrence of a keyword in any casing is an occurrence of the
    keyword in the lower-cased text. *)
Lemma Contains_lower (k variant pre suf : string) :
  lower variant = k -> Contains k (lower (pre +:+ variant +:+ suf)).
Proof.
  intros <-. exists (lower pre), (lower suf). now rewrite !lower_app.
Qed.

End StringFacts.

(** ** The classifier *)

Section Classifier.

Import Simple.

Lemma casing_of_lower (c d : ascii) :
  casing_of c d = true -> lower_ascii d = lower_ascii c.
Proof.
  unfold casing_of, lower_ascii. cbv zeta. intros H.
  apply orb_true_iff in H. destruct H as [H|H].
  - apply Nat.eqb_eq in H.
    assert (E : c = d) by (rewrite <- (ascii_nat_embedding c), H; apply ascii_nat_embedding).
    now subst.
  - apply andb_true_iff in H. destruct H as [H E].
    apply andb_true_iff in H. destruct H as [L U].
    apply Nat.leb_le in L, U. apply Nat.eqb_eq in E.
    assert (Hc : (65 <=? nat_of_ascii c)%nat && (nat_of_ascii c <=? 90)%nat = false).
    { apply andb_false_iff. right. apply Nat.leb_gt. lia. }
    assert (Hd : (65 <=? nat_of_ascii d)%nat && (nat_of_ascii d <=? 90)%nat = true).
    { apply andb_true_iff. split; apply Nat.leb_le; lia. }
    rewrite Hc, Hd, E. apply ascii_nat_embedding.
Qed.

Lemma casing_of_letter (c d : ascii) :
  casing_of c d = true -> is_letter c = true -> is_letter d = true.
Proof.
  unfold casing_of, is_letter. cbv zeta. intros H.
  apply orb_true_iff in H. destruct H as [H|H].
  - apply Nat.eqb_eq in H. now rewrite H.
  - intros _. apply andb_true_iff in H. destruct H as [H E].
    apply andb_true_iff in H. destruct H as [L U].
    apply Nat.leb_le in L, U. apply Nat.eqb_eq in E.
    apply orb_true_iff. left. apply andb_true_iff. split; apply Nat.leb_le; lia.
Qed.

(** A keyword in any casing lower-cases to what the keyword lower-cases
    to, and is made of letters if the keyword is. *)
Lemma casing_variant_lower (keyword variant : string) :
  casing_variant keyword variant = true -> lower variant = lower keyword.
Proof.
  revert variant. induction keyword as [|c k IH]; intros [|d v]; simpl; try discriminate.
  - reflexivity.
  - intros H. apply andb_true_iff in H. destruct H as [C V].
    now rewrite (casing_of_lower c d C), (IH v V).
Qed.

Lemma casing_variant_letters (keyword variant : string) :
  casing_variant keyword variant = true -> letters keyword = true -> letters variant = true.
Proof.
  revert variant. induction keyword as [|c k IH]; intros [|d v]; simpl; try discriminate.
  - reflexivity.
  - intros H L. apply andb_true_iff in H. destruct H as [C V].
    apply andb_true_iff in L. destruct L as [Lc Lk].
    now rewrite (casing_of_letter c d C Lc), (IH v V Lk).
Qed.

(** The configured keywords are written in small letters. *)
Lemma keywords_small_letters (k : string) :
  In k geopolitical_keywords \/ In k ticker_keywords -> letters k = true /\ lower k = k.
Proof.
  unfold geopolitical_keywords, ticker_keywords. simpl.
  intros [H|H]; repeat (destruct H as [<-|H]; [split; reflexivity|]); contradiction.
Qed.

(** C2.  [classify] lower-cases the query and looks at the result only.  It
    answers [fact_check] exactly when a geopolitical keyword occurs in the
    lower-cased query, [finance_only] exactly when none does and a ticker
    keyword does, [mixed] exactly when neither does, and never anything
    else.  Casing is ignored: a query that holds a geopolitical keyword
    with any of its letters capitalised is [fact_check], and one that holds
    a ticker keyword so written is [finance_only] unless it is
    [fact_check].  This holds for the lower-casing of the interpreter on all
    of Unicode, of which only this is used: a run of ASCII letters is
    lower-cased in place, whatever surrounds it. *)
Theorem classify_priority (str_lower : string -> string) (query : string) :
  (forall pre word suf, letters word = true ->
     exists pre' suf', str_lower (pre +:+ word +:+ suf) = pre' +:+ lower word +:+ suf') ->
  let geo := exists k, In k geopolitical_keywords /\ Contains k (str_lower query) in
  let ticker := exists t, In t ticker_keywords /\ Contains t (str_lower query) in
  (classify_with str_lower query = "fact_check" <-> geo) /\
  (classify_with str_lower query = "finance_only" <-> ~ geo /\ ticker) /\
  (classify_with str_lower query = "mixed" <-> ~ geo /\ ~ ticker) /\
  (classify_with str_lower query = "fact_check" \/
   classify_with str_lower query = "finance_only" \/
   classify_with str_lower query = "mixed") /\
  (forall k variant pre suf,
      In k geopolitical_keywords -> casing_variant k variant = true ->
      query = pre +:+ variant +:+ suf ->
      classify_with str_lower query = "fact_check") /\
  (forall t variant pre suf,
      In t ticker_keywords -> casing_variant t variant = true ->
      query = pre +:+ variant +:+ suf ->
      classify_with str_lower query = "fact_check" \/
      classify_with str_lower query = "finance_only") /\
  (forall query', str_lower query' = str_lower query ->
      classify_with str_lower query' = classify_with str_lower query) /\
  classify query = classify_with lower query.
Proof.
  intros Hrun geo ticker.
  assert (Hg : any_in geopolitical_keywords (str_lower query) = true <-> geo)
    by apply any_in_spec.
  assert (Ht : any_in ticker_keywords (str_lower query) = true <-> ticker)
    by apply any_in_spec.
  assert (Hocc : forall k variant pre suf,
             In k geopolitical_keywords \/ In k ticker_keywords ->
             casing_variant k variant = true ->
             query = pre +:+ variant +:+ suf ->
             Contains k (str_lower query)).
  { intros k variant pre suf K V ->.
    destruct (keywords_small_letters k K) as [L E].
    destruct (Hrun pre variant suf (casing_variant_letters k variant V L)) as [pre' [suf' R]].
    rewrite R, (casing_variant_lower k variant V), E. now exists pre', suf'. }
  assert (Hgeo : forall k variant pre suf,
             In k geopolitical_keywords -> casing_variant k variant = true ->
             query = pre +:+ variant +:+ suf ->
             classify_with str_lower query = "fact_check").
  { intros k variant pre suf K V Q. unfold classify_with.
    assert (any_in geopolitical_keywords (str_lower query) = true) as ->; [|reflexivity].
    apply Hg. exists k. split; [exact K|]. apply (Hocc k variant pre suf); auto. }
  assert (Htick : forall t variant pre suf,
             In t ticker_keywords -> casing_variant t variant = true ->
             query = pre +:+ variant +:+ suf ->
             classify_with str_lower query = "fact_check" \/
             classify_with str_lower query = "finance_only").
  { intros t variant pre suf K V Q. unfold classify_with.
    destruct (any_in geopolitical_keywords (str_lower query)); [now left|].
    assert (any_in ticker_keywords (str_lower query) = true) as ->; [|now right].
    apply Ht. exists t. split; [exact K|]. apply (Hocc t variant pre suf); auto. }
  assert (Hlow : forall query', str_lower query' = str_lower query ->
             classify_with str_lower query' = classify_with str_lower query).
  { intros query' E. unfold classify_with. now rewrite E. }
  unfold classify_with in *.
  destruct (any_in geopolitical_keywords (str_lower query)) eqn:G;
    [| destruct (any_in ticker_keywords (str_lower query)) eqn:T].
  - assert geo by now apply Hg.
    repeat split; try discriminate; try tauto; auto.
  - assert (~ geo) by (rewrite <- Hg; discriminate).
    assert ticker by now apply Ht.
    repeat split; try discriminate; try tauto; auto.
  - assert (~ geo) by (rewrite <- Hg; discriminate).
    assert (~ ticker) by (rewrite <- Ht; discriminate).
    repeat split; try discriminate; try tauto; auto.
Qed.

End Classifier.

(** ** The fact checker *)

Section FactChecker.

Import Simple.

Lemma verdict_cases (v : PyVal) :
  let text := lower (py_str v) in
  verdict v =
    if negb (truthy v) then
      {| status := "false"; reason := "No evidence found in recent reports." |}
    else if contains "no results" text then
      {| status := "false"; reason := "No evidence found in recent reports." |}
    else if contains "uncertain" text || contains "rumor" text || contains "unverified" text then
      {| status := "uncertain"; reason := "Conflicting or insufficient evidence." |}
    else
      {| status := "verified"; reason := "Evidence found in multiple sources." |}.
Proof.
  unfold verdict. destruct (truthy v); reflexivity.
Qed.

Lemma verdict_status_range (v : PyVal) :
  status (verdict v) = "false" \/ status (verdict v) = "uncertain" \/
  status (verdict v) = "verified".
Proof.
  rewrite verdict_cases. cbv zeta.
  destruct (negb (truthy v)); [now left|].
  destruct (contains "no results" _); [now left|].
  destruct (_ || _ || _); [right; now left | right; now right].
Qed.

(** The three dicts [check] can return. *)
Lemma verdict_values (v : PyVal) :
  verdict v = {| status := "false"; reason := "No evidence found in recent reports." |} \/
  verdict v = {| status := "uncertain"; reason := "Conflicting or insufficient evidence." |} \/
  verdict v = {| status := "verified"; reason := "Evidence found in multiple sources." |}.
Proof.
  rewrite verdict_cases. cbv zeta.
  destruct (negb (truthy v)); [now left|].
  destruct (contains "no results" _); [now left|].
  destruct (_ || _ || _); [right; now left | right; now right].
Qed.

(** On an output that counts as true the status follows the text rules. *)
Lemma verdict_truthy (v : PyVal) :
  truthy v = true -> status (verdict v) = status_by_text (lower (py_str v)).
Proof.
  intros T. rewrite verdict_cases. cbv zeta. rewrite T. unfold status_by_text. simpl.
  destruct (contains "no results" _); [reflexivity|].
  destruct (_ || _ || _); reflexivity.
Qed.

Lemma verdict_falsy (v : PyVal) :
  truthy v = false -> status (verdict v) = "false".
Proof.
  intros T. rewrite verdict_cases. cbv zeta. now rewrite T.
Qed.

(** C3, as stated, fails: the empty output and [None] hold none of the
    four phrases, so the text rules say [verified], yet [check] answers
    [false]. *)
Lemma verdict_empty_output :
  status_by_text (lower (py_str (PyStr EmptyString))) = "verified" /\
  status (verdict (PyStr EmptyString)) = "false" /\
  status_by_text (lower (py_str PyNone)) = "verified" /\
  status (verdict PyNone) = "false".
Proof.
  repeat split; reflexivity.
Qed.

(** C3, amended.  The status is a function of the output's truth value and
    its lower-cased text: [false] exactly when the output counts as false
    (empty, [None]) or the text holds "no results"; otherwise [uncertain]
    exactly when it holds "uncertain", "rumor" or "unverified"; otherwise
    [verified].  [check] asks the research agent once and returns this
    verdict. *)
Theorem verdict_by_truth_and_text (world : Oracle) (query : string) (h : History) (v : PyVal) :
  let text := lower (py_str v) in
  let phrase := Contains "uncertain" text \/ Contains "rumor" text \/ Contains "unverified" text in
  (status (verdict v) = "false" <-> truthy v = false \/ Contains "no results" text) /\
  (status (verdict v) = "uncertain" <->
     truthy v = true /\ ~ Contains "no results" text /\ phrase) /\
  (status (verdict v) = "verified" <->
     truthy v = true /\ ~ Contains "no results" text /\ ~ phrase) /\
  (truthy v = true -> status (verdict v) = status_by_text text) /\
  (forall v', truthy v' = truthy v -> lower (py_str v') = text -> verdict v' = verdict v) /\
  (world h WebAgent query = Ok v ->
     check world query h = ((h ++ [Call WebAgent query])%list, Ok (verdict v))).
Proof.
  intros text phrase.
  assert (Hn : contains "no results" text = true <-> Contains "no results" text)
    by apply contains_spec.
  assert (Hp : contains "uncertain" text || contains "rumor" text
               || contains "unverified" text = true <-> phrase).
  { unfold phrase. rewrite !orb_true_iff, !contains_spec. tauto. }
  split; [|split; [|split; [|split; [|split]]]].
  4: apply verdict_truthy.
  4: { intros v' T E. unfold verdict. fold text. now rewrite T, E. }
  4: { intros W. unfold check, bind, call, ret. now rewrite W. }
  all: rewrite verdict_cases; cbv zeta; fold text.
  all: destruct (truthy v); simpl.
  all: try (destruct (contains "no results" text) eqn:N;
            [| destruct (contains "uncertain" text || contains "rumor" text
                         || contains "unverified" text) eqn:P]).
  all: simpl.
  all: try (assert (Contains "no results" text) by (now apply Hn)).
  all: try (assert (~ Contains "no results" text) by (rewrite <- Hn; discriminate)).
  all: try (assert phrase by (now apply Hp)).
  all: try (assert (~ phrase) by (rewrite <- Hp; discriminate)).
  all: split; intros; try discriminate; try tauto.
  all: try (intuition discriminate).
Qed.

(** The verdict at work on a truthy run response and on a falsy one. *)
Lemma verdict_by_truth_and_text_witness :
  status (verdict (PyStr "Only a Rumor so far")) = status_by_text "only a rumor so far".
Proof.
  exact (proj1 (proj2 (proj2 (proj2
    (verdict_by_truth_and_text (fun _ _ _ => Ok PyNone) "q" [] (PyStr "Only a Rumor so far")))))
    eq_refl).
Defined.

End FactChecker.

(** ** The gate-then-clarify router *)

Section SimpleRouter.

Import Simple.

Variable world : Oracle.

Lemma calls_app (c : Callee) (h1 h2 : History) :
  calls c (h1 ++ h2) = calls c h1 + calls c h2.
Proof.
  unfold calls. now rewrite List.filter_app, length_app.
Qed.

Lemma run_agents_events (query : string) (h : History) :
  fst (run_agents world query h) = (h ++ [Call Team query])%list.
Proof.
  unfold run_agents, bind, call, ret.
  destruct (world h Team query) as [r|e]; [|reflexivity].
  destruct r as [| | | | | |entries|info [c|]]; try reflexivity.
  destruct (dict_lookup "content" entries); reflexivity.
Qed.

Lemma route_finance_only (query : string) (h : History) :
  classify query = "finance_only" -> route world query h = run_agents world query h.
Proof.
  intros C. unfold route. now rewrite C.
Qed.

(** What [route] does once the research agent has answered, by status. *)
Lemma route_checked (query : string) (h : History) (v : PyVal) :
  classify query <> "finance_only" ->
  world h WebAgent query = Ok v ->
  route world query h =
    if String.eqb (status (verdict v)) "false" then
      ((h ++ [Call WebAgent query])%list, Ok (PyStr (no_evidence_message (verdict v))))
    else if String.eqb (status (verdict v)) "uncertain" then
      ((h ++ [Call WebAgent query])%list, Ok (PyStr (not_verified_message (verdict v))))
    else run_agents world query (h ++ [Call WebAgent query]).
Proof.
  intros C W. unfold route.
  destruct (String.eqb_spec (classify query) "finance_only") as [E|_]; [contradiction|].
  destruct (String.eqb (classify query) "fact_check");
    unfold check, bind, call, ret; rewrite W;
    destruct (verdict_status_range v) as [S|[S|S]];
    unfold _handle_fact_check; rewrite S; reflexivity.
Qed.

Lemma route_check_raises (query : string) (h : History) (e : PyExn) :
  classify query <> "finance_only" ->
  world h WebAgent query = Raise e ->
  route world query h = ((h ++ [Call WebAgent query])%list, Raise e).
Proof.
  intros C W. unfold route.
  destruct (String.eqb_spec (classify query) "finance_only") as [E|_]; [contradiction|].
  destruct (String.eqb (classify query) "fact_check");
    unfold check, bind, call, ret; rewrite W; reflexivity.
Qed.

Lemma classify_range (query : string) :
  classify query = "fact_check" \/ classify query = "finance_only" \/
  classify query = "mixed".
Proof.
  unfold classify. destruct (any_in _ _); [now left|].
  destruct (any_in _ _); [right; now left | right; now right].
Qed.

(** C1.  [route] calls the team, once and with the query, when the category
    is [finance_only] or the fact checker returned [verified] (the category
    then being [fact_check] or [mixed]); in every other case it does not
    call the team.  For a [fact_check] query whose status is [false] or
    [uncertain] the run is the fact check alone and returns the clarifying
    message: the "no recent reports" text for [false], the "couldn't fully
    verify" text for [uncertain]. *)
Theorem route_dispatch (query : string) (h : History) :
  let category := classify query in
  let run := route world query h in
  let verified :=
    exists v, world h WebAgent query = Ok v /\ status (verdict v) = "verified" in
  let dispatch :=
    category = "finance_only" \/
    ((category = "fact_check" \/ category = "mixed") /\ verified) in
  (dispatch ->
     calls Team (fst run) = S (calls Team h) /\
     exists before, fst run = (before ++ [Call Team query])%list) /\
  (~ dispatch -> calls Team (fst run) = calls Team h) /\
  (forall v, category = "fact_check" -> world h WebAgent query = Ok v ->
     (status (verdict v) = "false" ->
        run = ((h ++ [Call WebAgent query])%list,
               Ok (PyStr "⚠️ No recent reports confirm this. No evidence found in recent reports. Would you like me to run a hypothetical analysis instead?"))) /\
     (status (verdict v) = "uncertain" ->
        run = ((h ++ [Call WebAgent query])%list,
               Ok (PyStr "🤔 I couldn’t fully verify this. Conflicting or insufficient evidence. Should I proceed hypothetically?")))).
Proof.
  intros category run verified dispatch.
  assert (Hteam : forall h', calls Team (fst (run_agents world query h')) = S (calls Team h')).
  { intros h'. rewrite run_agents_events, calls_app. unfold calls. simpl. lia. }
  assert (Hweb : calls Team (h ++ [Call WebAgent query]) = calls Team h).
  { rewrite calls_app. unfold calls. simpl. lia. }
  split; [|split].
  - intros [F | [C [v [W V]]]].
    + subst run. rewrite route_finance_only by exact F.
      split; [apply Hteam | eexists; apply run_agents_events].
    + assert (N : category <> "finance_only") by (destruct C as [C|C]; rewrite C; discriminate).
      subst run. rewrite (route_checked query h v N W), V. simpl.
      split; [now rewrite Hteam, Hweb | eexists; apply run_agents_events].
  - intros ND.
    assert (N : category <> "finance_only") by (intros F; apply ND; now left).
    assert (C : category = "fact_check" \/ category = "mixed")
      by (destruct (classify_range query) as [C|[C|C]]; [now left | contradiction | now right]).
    subst run. destruct (world h WebAgent query) as [v|e] eqn:W.
    + rewrite (route_checked query h v N W).
      destruct (verdict_status_range v) as [S|[S|S]]; rewrite S; simpl; try exact Hweb.
      exfalso. apply ND. right. split; [exact C|]. now exists v.
    + rewrite (route_check_raises query h e N W). exact Hweb.
  - intros v C W.
    assert (N : category <> "finance_only") by (rewrite C; discriminate).
    subst run. rewrite (route_checked query h v N W).
    destruct (verdict_values v) as [V|[V|V]]; rewrite V; simpl;
      split; intros S; try discriminate S; reflexivity.
Qed.

(** C4.  A [mixed] query begins with the fact check: the first thing the
    run does is the call to the research agent, and a call to the team, if
    any, comes after it.  A [finance_only] query runs the team call and
    nothing else, so the fact checker is not invoked. *)
Theorem fact_check_precedes_dispatch (query : string) (h : History) :
  (classify query = "mixed" ->
     exists rest,
       fst (route world query h) = (h ++ Call WebAgent query :: rest)%list /\
       (rest = [] \/ rest = [Call Team query])) /\
  (classify query = "finance_only" ->
     fst (route world query h) = (h ++ [Call Team query])%list /\
     calls WebAgent (fst (route world query h)) = calls WebAgent h).
Proof.
  split.
  - intros C.
    assert (N : classify query <> "finance_only") by (rewrite C; discriminate).
    destruct (world h WebAgent query) as [v|e] eqn:W.
    + rewrite (route_checked query h v N W).
      destruct (verdict_status_range v) as [S|[S|S]]; rewrite S; simpl.
      * exists []. split; [reflexivity | now left].
      * exists []. split; [reflexivity | now left].
      * exists [Call Team query]. rewrite run_agents_events, <- app_assoc.
        split; [reflexivity | now right].
    + rewrite (route_check_raises query h e N W).
      exists []. split; [reflexivity | now left].
  - intros C. rewrite (route_finance_only query h C), run_agents_events.
    split; [reflexivity|]. rewrite calls_app. unfold calls. simpl. lia.
Qed.

End SimpleRouter.

(** ** The validation-first routers *)

Section ValidationRouter.

Import Structured.

Variable json_loads : string -> option PyVal.
Variable world : Oracle.

Lemma route_validator_raises (query : string) (h : History) (e : PyExn) :
  world (h ++ [Print "Validating news claims..."]) Validator (validator_request query) = Raise e ->
  route json_loads world query h =
    (h ++ [Print "Validating news claims..."; Call Validator (validator_request query)],
     Raise e).
Proof.
  intros W. unfold route, bind, print, call. rewrite W.
  now rewrite <- app_assoc.
Qed.

(** When the decoded answer is a dict, the team is called with the
    enhanced prompt and its response is presented. *)
Lemma route_dict (query : string) (h : History) (r : PyVal) (entries : list (string * PyVal)) :
  world (h ++ [Print "Validating news claims..."]) Validator (validator_request query) = Ok r ->
  safe_parse_json json_loads (getattr_content r (PyStr (py_str r))) = PyDict entries ->
  let prompt :=
    enhanced_prompt query
      (dict_get entries "status" (PyStr "uncertain"))
      (dict_get entries "summary" (PyStr EmptyString))
      (dict_get entries "sources" (PyList [])) in
  route json_loads world query h =
    (validated h query ++ [Call Team prompt],
     match world (validated h query) Team prompt with
     | Ok team_response => present_response team_response
     | Raise e => Raise e
     end).
Proof.
  intros W J prompt. unfold route, bind, print, call, lift, validated. rewrite W, J. simpl.
  rewrite <- !app_assoc. simpl. fold prompt.
  destruct (world _ Team prompt); reflexivity.
Qed.

(** When the decoded answer is anything else, [val_json.get] raises and the
    team is not reached. *)
Lemma route_not_dict (query : string) (h : History) (r : PyVal) :
  world (h ++ [Print "Validating news claims..."]) Validator (validator_request query) = Ok r ->
  let val_json := safe_parse_json json_loads (getattr_content r (PyStr (py_str r))) in
  (forall entries, val_json <> PyDict entries) ->
  route json_loads world query h =
    (validated h query, Raise (AttributeError val_json "get")).
Proof.
  intros W val_json N. unfold route, bind, print, call, lift, validated. rewrite W.
  fold val_json. rewrite <- !app_assoc. simpl.
  destruct val_json; try reflexivity. now destruct (N entries).
Qed.

(** The enhanced prompt holds the query. *)
Lemma enhanced_prompt_query (query : string) (val_status val_summary val_sources : PyVal) :
  Contains query (enhanced_prompt query val_status val_summary val_sources).
Proof.
  exists (nl +:+ indent +:+ "ORIGINAL USER QUERY: "). eexists. reflexivity.
Qed.

(** C6.  When the validator's answer is not text that [json.loads] decodes,
    [safe_parse_json] gives the empty dict, and [route] goes on: it calls
    the team with the prompt built from status "uncertain", an empty summary
    and an empty source list, and returns the presented team response.  The
    parse failure raises nothing. *)
Theorem parse_failure_defaults (query : string) (h : History) (r : PyVal) :
  let text := getattr_content r (PyStr (py_str r)) in
  let prompt := enhanced_prompt query (PyStr "uncertain") (PyStr EmptyString) (PyList []) in
  world (h ++ [Print "Validating news claims..."]) Validator (validator_request query) = Ok r ->
  (forall s, text = PyStr s -> json_loads s = None) ->
  safe_parse_json json_loads text = PyDict [] /\
  route json_loads world query h =
    (validated h query ++ [Call Team prompt],
     match world (validated h query) Team prompt with
     | Ok team_response => present_response team_response
     | Raise e => Raise e
     end) /\
  prompt =
    nl +:+ indent +:+ "ORIGINAL USER QUERY: " +:+ query +:+ nl +:+ nl +:+
    indent +:+ "FACT-CHECK STATUS: uncertain" +:+ nl +:+
    indent +:+ "FACT-CHECK SUMMARY: " +:+ nl +:+
    indent +:+ "SOURCES: []" +:+ nl +:+ nl +:+
    indent +:+ "TEAM INSTRUCTIONS:" +:+ nl +:+
    indent +:+ "Based on the validated context above, provide a comprehensive financial analysis." +:+ nl +:+
    indent +:+ "Use your own research + financial data, but do NOT repeat JSON blocks." +:+ nl +:+
    indent +:+ "Structure your response with clear sections and confidence indicators." +:+ nl +:+
    indent.
Proof.
  intros text prompt W U.
  assert (J : safe_parse_json json_loads text = PyDict []).
  { unfold safe_parse_json. destruct text as [| | | |s| | |]; try reflexivity.
    now rewrite (U s eq_refl). }
  split; [exact J|]. split; [|reflexivity].
  exact (route_dict query h r [] W J).
Qed.

End ValidationRouter.

Section EarlierRouter.

Import Earlier.

Variable world : Oracle.

(** The earlier router has no parsing step: whatever the validator
    returns is printed into the prompt and the team is called. *)
Lemma earlier_route_forwards (query : string) (h : History) (r : PyVal) :
  world (h ++ [Print "🔍 Validating news claims..."]) Validator (validator_request query) = Ok r ->
  let h3 := h ++ [Print "🔍 Validating news claims...";
                  Call Validator (validator_request query);
                  Print "✅ Validation complete. Proceeding with analysis..."] in
  route world query h =
    (h3 ++ [Call Team (enhanced_prompt query r)],
     world h3 Team (enhanced_prompt query r)).
Proof.
  intros W h3. unfold route, bind, print, call. rewrite W. simpl.
  subst h3. now rewrite <- !app_assoc.
Qed.

End EarlierRouter.

Section ValidationRouterRuns.

Import Structured Scenario.

(** C5 fails on the code: a validator answer that is valid JSON but not an
    object, here the empty array, makes [val_json.get] raise
    [AttributeError] after the second progress line, and the team is never
    called.  In the loop the user is shown the error banner instead of an
    analysis. *)
Theorem route_json_array_raises :
  let world := answering "[]" in
  let run := route Json.loads world "Tesla recall" [] in
  Json.loads "[]" = Some (PyList []) /\
  run = ([Print "Validating news claims...";
          Call Validator (validator_request "Tesla recall");
          Print "Validation complete. Proceeding with analysis..."],
         Raise (AttributeError (PyList []) "get")) /\
  calls Team (fst run) = 0 /\
  validated_finance_team_loop Json.loads world ["Tesla recall"] [] =
    ([Input "Ask the Validated Finance Team: " "Tesla recall";
      Print (nl +:+ "🔎 Processing: Tesla recall");
      Print "Validating news claims...";
      Call Validator (validator_request "Tesla recall");
      Print "Validation complete. Proceeding with analysis...";
      Print "❌ Error: 'list' object has no attribute 'get'";
      Print ("Please try again with a different query." +:+ nl)],
     Ok AwaitingInput).
Proof.
  vm_compute. repeat split; reflexivity.
Qed.

(** A validator answer in prose is not JSON: the defaults are used and the
    team is called once. *)
Lemma parse_failure_defaults_witness :
  let world := answering "I could not verify this claim." in
  safe_parse_json Json.loads (PyStr "I could not verify this claim.") = PyDict [] /\
  calls Team (fst (route Json.loads world "Tesla recall" [])) = 1.
Proof.
  intros world.
  destruct (parse_failure_defaults Json.loads world "Tesla recall" []
              (run_response (PyStr "I could not verify this claim.")))
    as [J [R _]].
  - reflexivity.
  - intros s E. injection E as <-. vm_compute. reflexivity.
  - split; [exact J | rewrite R; reflexivity].
Defined.

End ValidationRouterRuns.

(** ** The presenter on the shapes of a team response *)

Section Unwrapping.

Import Structured.

(** C10, as stated, fails for the empty content: a dict whose "content" is
    the empty string is presented as the empty string, nothing is raised. *)
Lemma present_response_empty_content :
  present_response (PyDict [("content", PyStr EmptyString)]) = Ok EmptyString.
Proof.
  reflexivity.
Qed.

(** C10, amended.  On a dict [present_response] takes the "content" entry
    whatever its truth value.  Without the key, or with [None] under it, it
    raises the [AttributeError] of [None.strip]; with any other value that
    is not a string it raises likewise; with a string, the empty one
    included, it returns.  A plain string is presented; so is an object
    whose content is a non-empty string, and an object whose content is
    missing or counts as false is presented through its [str()]. *)
Theorem present_response_shapes (entries : list (string * PyVal)) (info : ObjInfo) :
  (dict_lookup "content" entries = None ->
     present_response (PyDict entries) = Raise (AttributeError PyNone "strip")) /\
  (forall c, dict_lookup "content" entries = Some c -> (forall s, c <> PyStr s) ->
     present_response (PyDict entries) = Raise (AttributeError c "strip")) /\
  (forall s, dict_lookup "content" entries = Some (PyStr s) ->
     present_response (PyDict entries) = Ok (present_text (strip s))) /\
  (forall s, present_response (PyStr s) = Ok (present_text (strip s))) /\
  (forall s, s <> EmptyString ->
     present_response (PyObj info (Some (PyStr s))) = Ok (present_text (strip s))) /\
  (forall c, truthy c = false ->
     present_response (PyObj info (Some c)) = Ok (present_text (strip (obj_str info)))) /\
  present_response (PyObj info None) = Ok (present_text (strip (obj_str info))).
Proof.
  unfold present_response, getattr_content, py_or, dict_get. simpl.
  repeat split.
  - intros L. now rewrite L.
  - intros c L N. rewrite L. destruct c; try reflexivity. now destruct (N s).
  - intros s L. now rewrite L.
  - intros s N. destruct s; [contradiction | reflexivity].
  - intros c T. now rewrite T.
Qed.

End Unwrapping.

(** ** The interactive loops *)

Section Loops.

Import Scenario.

Variable json_loads : string -> option PyVal.
Variable world : Oracle.

Lemma isspace_lower_ascii (c : ascii) : isspace (lower_ascii c) = isspace c.
Proof.
  destruct c as [[] [] [] [] [] [] [] []]; reflexivity.
Qed.

Lemma strip_nonspace (c : ascii) (s : string) :
  isspace c = false -> strip (String c s) <> EmptyString.
Proof.
  intros C. unfold strip. simpl. rewrite C. simpl.
  destruct (rstrip s); [rewrite C|]; discriminate.
Qed.

(** A line that lower-cases to a reserved token is not blank. *)
Lemma token_not_blank (line : string) :
  In (lower line) ["exit"; "quit"; "bye"] -> strip line <> EmptyString.
Proof.
  intros H. destruct line as [|c s]; simpl in H.
  - intuition discriminate.
  - apply strip_nonspace. rewrite <- isspace_lower_ascii.
    destruct H as [H|[H|[H|[]]]]; injection H as <- _; reflexivity.
Qed.

Lemma reserved_set (x : string) :
  x ∈ ({["exit"; "quit"; "bye"]} : gset string) <-> In x ["exit"; "quit"; "bye"].
Proof.
  rewrite !elem_of_union, !elem_of_singleton. simpl. intuition congruence.
Qed.

Lemma one_of_spec (x : string) (keywords : list string) :
  one_of x keywords = true <-> In x keywords.
Proof.
  unfold one_of. rewrite existsb_exists. split.
  - intros [k [Hk E]]. apply String.eqb_eq in E. now subst.
  - intros H. exists x. split; [exact H | apply String.eqb_refl].
Qed.

(** C8, amended.  In the loop of the validated team a line that
    lower-cases to exit, quit or bye ends the loop: the farewell is printed
    and nothing is routed.  In the loop of [main.py] the same holds for exit
    and quit. *)
Theorem reserved_tokens_end_loop (line : string) (rest : list string) (h : History) :
  (In (lower line) ["exit"; "quit"; "bye"] ->
     Structured.validated_finance_team_loop json_loads world (line :: rest) h =
       (h ++ [Input "Ask the Validated Finance Team: " line;
              Print "👋 Thanks for using Validated Finance Team!"],
        Ok Exited)) /\
  (In (lower line) ["exit"; "quit"] ->
     Simple.finance_team_loop world (line :: rest) h =
       (h ++ [Input "😎 User : " line; Print "👋 Exiting Finance Team."],
        Ok Exited)).
Proof.
  split; intros H.
  - simpl. unfold bind at 1. unfold input at 1.
    destruct (decide _) as [_|N]; [|now apply reserved_set in H].
    unfold bind, print, ret. now rewrite <- app_assoc.
  - apply one_of_spec in H.
    change (Simple.finance_team_loop world (line :: rest) h)
      with ((if one_of (lower line) ["exit"; "quit"]
             then bind (print "👋 Exiting Finance Team.") (fun _ => ret Exited)
             else bind (Simple.route world line)
                    (fun response =>
                       bind (print (nl +:+ "🧠 Response:" +:+ nl +:+ py_str response +:+ nl))
                         (fun _ => Simple.finance_team_loop world rest)))
              (h ++ [Input "😎 User : " line])).
    rewrite H. unfold bind, print, ret. now rewrite <- app_assoc.
Qed.

(** C8 fails in [main.py] for bye: the line is routed as a query (here the
    fact check is called and the clarifying message printed) and the loop
    goes on waiting for input. *)
Lemma simple_loop_routes_bye :
  Simple.finance_team_loop (answering "{}") ["bye"] [] =
    ([Input "😎 User : " "bye";
      Call WebAgent "bye";
      Print (nl +:+ "🧠 Response:" +:+ nl +:+
             "⚠️ No recent reports confirm this. No evidence found in recent reports. Would you like me to run a hypothetical analysis instead?" +:+ nl)],
     Ok AwaitingInput).
Proof.
  vm_compute. reflexivity.
Qed.

(** C9, amended.  In the loop of the validated team a line that is empty
    or all whitespace adds nothing to the history but its own reading: no
    line is printed, no collaborator is called, and the loop goes on with
    the next line. *)
Theorem blank_input_skipped (line : string) (rest : list string) (h : History) :
  strip line = EmptyString ->
  Structured.validated_finance_team_loop json_loads world (line :: rest) h =
    Structured.validated_finance_team_loop json_loads world rest
      (h ++ [Input "Ask the Validated Finance Team: " line]).
Proof.
  intros B. simpl. unfold bind at 1. unfold input at 1.
  destruct (decide _) as [T|_].
  - apply reserved_set, token_not_blank in T. contradiction.
  - now rewrite B.
Qed.

(** C9 fails in [main.py]: the empty line is routed as a query. *)
Lemma simple_loop_routes_empty_line :
  Simple.finance_team_loop (answering "{}") [EmptyString] [] =
    ([Input "😎 User : " EmptyString;
      Call WebAgent EmptyString;
      Print (nl +:+ "🧠 Response:" +:+ nl +:+
             "⚠️ No recent reports confirm this. No evidence found in recent reports. Would you like me to run a hypothetical analysis instead?" +:+ nl)],
     Ok AwaitingInput).
Proof.
  vm_compute. reflexivity.
Qed.

End Loops.

Section LoopRuns.

Import Scenario.

(** A line of blanks and a tab, then a query: only the query is routed. *)
Lemma blank_input_skipped_witness :
  let blank := "  " +:+ String (ascii_of_nat 9) EmptyString in
  Structured.validated_finance_team_loop Json.loads (answering "{}") [blank; "Tesla recall"] [] =
  Structured.validated_finance_team_loop Json.loads (answering "{}") ["Tesla recall"]
    [Input "Ask the Validated Finance Team: " blank].
Proof.
  intros blank.
  exact (blank_input_skipped Json.loads (answering "{}") blank ["Tesla recall"] [] eq_refl).
Defined.

End LoopRuns.

(** ** The presenter: splitting, duplicate removal, joining *)

Section Presenter.

Import Structured.

Lemma split_empty : split blank_line EmptyString = [EmptyString].
Proof. reflexivity. Qed.

Lemma split_sep (r : string) :
  split blank_line (String LF (String LF r)) = EmptyString :: split blank_line r.
Proof. reflexivity. Qed.

Lemma split_other (c : ascii) (s : string) :
  startswith blank_line (String c s) = false ->
  split blank_line (String c s) = push_head c (split blank_line s).
Proof.
  intros H. unfold split. cbn [split_from]. now rewrite H.
Qed.

Lemma startswith_blank_line (c : ascii) (s : string) :
  startswith blank_line (String c s) = true <-> c = LF /\ exists r, s = String LF r.
Proof.
  rewrite startswith_spec. unfold blank_line. simpl. split.
  - intros [suf E]. injection E as -> ->. eauto.
  - intros [-> [r ->]]. now exists r.
Qed.

(** Induction along the way [split] reads a text. *)
Lemma split_ind (P : string -> Prop) :
  P EmptyString ->
  (forall r, P r -> P (String LF (String LF r))) ->
  (forall c s, startswith blank_line (String c s) = false -> P s -> P (String c s)) ->
  forall s, P s.
Proof.
  intros H0 H2 H1 s.
  assert (G : forall n s, String.length s <= n -> P s).
  { clear s. induction n as [|n IH]; intros s L.
    - destruct s; [exact H0 | simpl in L; lia].
    - destruct s as [|c s]; [exact H0|].
      destruct (startswith blank_line (String c s)) eqn:E.
      + apply startswith_blank_line in E. destruct E as [-> [r ->]].
        apply H2, IH. simpl in L. lia.
      + apply H1; [exact E|]. apply IH. simpl in L. lia. }
  exact (G (String.length s) s (le_n _)).
Qed.

Lemma split_nonempty (s : string) : split blank_line s <> [].
Proof.
  induction s using split_ind.
  - discriminate.
  - rewrite split_sep. discriminate.
  - rewrite split_other by assumption. destruct (split blank_line s); discriminate.
Qed.

Lemma join_cons (sep p : string) (rest : list string) :
  rest <> [] -> join sep (p :: rest) = p +:+ sep +:+ join sep rest.
Proof.
  destruct rest; [contradiction | reflexivity].
Qed.

Lemma join_push_head (sep : string) (c : ascii) (pieces : list string) :
  pieces <> [] -> join sep (push_head c pieces) = String c (join sep pieces).
Proof.
  destruct pieces as [|p [|q rest]]; [contradiction | reflexivity | reflexivity].
Qed.

(** Joining the segments of a text gives the text back. *)
Lemma join_split (s : string) : join blank_line (split blank_line s) = s.
Proof.
  induction s as [| r IH | c s E IH] using split_ind.
  - reflexivity.
  - rewrite split_sep, join_cons by apply split_nonempty. now rewrite IH.
  - rewrite split_other by exact E.
    rewrite join_push_head by apply split_nonempty. now rewrite IH.
Qed.

Lemma contains_blank_line_cons (c : ascii) (p : string) :
  contains blank_line (String c p) = false ->
  startswith blank_line (String c p) = false /\ contains blank_line p = false.
Proof.
  cbn [contains]. intros H. apply orb_false_iff in H. exact H.
Qed.

Lemma separable_head (p : string) (rest : list string) :
  separable (p :: rest) -> contains blank_line p = false.
Proof.
  simpl. tauto.
Qed.

Lemma separable_tail (p : string) (rest : list string) :
  separable (p :: rest) -> separable rest.
Proof.
  destruct rest; simpl; tauto.
Qed.

Lemma separable_cons (p : string) (rest : list string) :
  contains blank_line p = false ->
  (rest <> [] -> ends_with_LF p = false) ->
  separable rest ->
  separable (p :: rest).
Proof.
  intros C E S. destruct rest as [|q rest]; simpl; [tauto|].
  split; [exact C|]. split; [apply E; discriminate | exact S].
Qed.

Lemma ends_with_LF_cons (c d : ascii) (p : string) :
  ends_with_LF (String c (String d p)) = ends_with_LF (String d p).
Proof. reflexivity. Qed.

(** The segments [split] produces can be joined and split again. *)
Lemma split_separable (s : string) : separable (split blank_line s).
Proof.
  induction s as [| r IH | c s E IH] using split_ind.
  - simpl. tauto.
  - rewrite split_sep. apply separable_cons; [reflexivity | reflexivity | exact IH].
  - rewrite split_other by exact E.
    pose proof (join_split s) as J.
    destruct (split blank_line s) as [|p rest] eqn:Sp; [now destruct (split_nonempty s)|].
    cbn [push_head].
    assert (Hp : contains blank_line p = false) by exact (separable_head _ _ IH).
    apply separable_cons.
    + cbn [contains]. rewrite Hp, orb_false_r.
      destruct (startswith blank_line (String c p)) eqn:F; [|reflexivity].
      apply startswith_blank_line in F. destruct F as [-> [p' ->]].
      assert (startswith blank_line (String LF s) = true) as F; [|congruence].
      apply startswith_blank_line. split; [reflexivity|].
      destruct rest; simpl in J; rewrite <- J; eauto.
    + intros N. destruct p as [|d p].
      * cbn. destruct (ascii_dec c LF) as [->|]; [|reflexivity].
        assert (startswith blank_line (String LF s) = true) as F; [|congruence].
        apply startswith_blank_line. split; [reflexivity|].
        rewrite join_cons in J by exact N. rewrite <- J. simpl. eauto.
      * rewrite ends_with_LF_cons. destruct rest; [contradiction|]. simpl in IH. tauto.
    + exact (separable_tail _ _ IH).
Qed.

Lemma split_piece (p : string) :
  contains blank_line p = false -> split blank_line p = [p].
Proof.
  induction p as [|c p IH]; intros C; [reflexivity|].
  apply contains_blank_line_cons in C. destruct C as [F C].
  rewrite split_other by exact F. now rewrite IH.
Qed.

Lemma split_app_sep (p s : string) :
  contains blank_line p = false -> ends_with_LF p = false ->
  split blank_line (p +:+ blank_line +:+ s) = p :: split blank_line s.
Proof.
  induction p as [|c p IH]; intros C E.
  - apply split_sep.
  - apply contains_blank_line_cons in C. destruct C as [F C].
    change (String c p +:+ blank_line +:+ s) with (String c (p +:+ blank_line +:+ s)).
    rewrite split_other.
    + rewrite IH; [reflexivity | exact C |].
      destruct p; [reflexivity | exact E].
    + destruct (startswith blank_line (String c (p +:+ blank_line +:+ s))) eqn:G; [|reflexivity].
      apply startswith_blank_line in G. destruct G as [-> [r G]].
      destruct p as [|d p].
      * cbn in E. destruct (ascii_dec LF LF); [discriminate | contradiction].
      * simpl in G. injection G as -> _.
        assert (startswith blank_line (String LF (String LF p)) = true) as F'; [|congruence].
        apply startswith_blank_line. eauto.
Qed.

(** Splitting the join of separable segments gives the segments back. *)
Lemma split_join (pieces : list string) :
  pieces <> [] -> separable pieces -> split blank_line (join blank_line pieces) = pieces.
Proof.
  induction pieces as [|p rest IH]; intros N S; [contradiction|].
  destruct rest as [|q rest].
  - apply split_piece. exact (separable_head _ _ S).
  - rewrite join_cons by discriminate.
    simpl in S. destruct S as [C [E S]].
    rewrite split_app_sep by assumption.
    f_equal. apply IH; [discriminate | exact S].
Qed.

(** The loop adds the first occurrences of the segments not yet seen. *)
Lemma dedupe_loop_spec (parts : list string) (seen : gset string) (cleaned : list string) :
  dedupe_loop parts seen cleaned = cleaned ++ first_occurrences seen parts.
Proof.
  revert seen cleaned. induction parts as [|p rest IH]; intros seen cleaned; simpl.
  - now rewrite app_nil_r.
  - destruct (decide (p ∈ seen)); rewrite IH; [reflexivity | now rewrite <- app_assoc].
Qed.

Lemma first_occurrences_fresh (seen : gset string) (parts : list string) (x : string) :
  In x (first_occurrences seen parts) -> (x ∉ seen) /\ In x parts.
Proof.
  revert seen. induction parts as [|p rest IH]; intros seen; simpl; [tauto|].
  destruct (decide (p ∈ seen)) as [Hin|Hnin].
  - intros H. apply IH in H. tauto.
  - intros [<-|H]; [tauto|]. apply IH in H. destruct H as [H1 H2].
    split; [|tauto]. intros Hs. apply H1, elem_of_union. now right.
Qed.

Lemma first_occurrences_NoDup (seen : gset string) (parts : list string) :
  List.NoDup (first_occurrences seen parts).
Proof.
  revert seen. induction parts as [|p rest IH]; intros seen; simpl; [constructor|].
  destruct (decide (p ∈ seen)); [apply IH|].
  constructor; [|apply IH].
  intros H. apply first_occurrences_fresh in H. destruct H as [H _].
  apply H, elem_of_union. left. now apply elem_of_singleton.
Qed.

(** Segments that are distinct and not yet seen are all kept. *)
Lemma first_occurrences_id (seen : gset string) (parts : list string) :
  List.NoDup parts -> (forall x, In x parts -> x ∉ seen) ->
  first_occurrences seen parts = parts.
Proof.
  revert seen. induction parts as [|p rest IH]; intros seen D F; simpl; [reflexivity|].
  inversion D as [|? ? Hp Hrest]; subst.
  destruct (decide (p ∈ seen)) as [Hin|_]; [exfalso; apply (F p); simpl; tauto|].
  f_equal. apply IH; [exact Hrest|].
  intros x Hx. specialize (F x (or_intror Hx)).
  assert (x <> p) by (intros ->; contradiction).
  rewrite elem_of_union, elem_of_singleton. tauto.
Qed.

Lemma first_occurrences_separable (seen : gset string) (parts : list string) :
  separable parts -> separable (first_occurrences seen parts).
Proof.
  revert seen. induction parts as [|p rest IH]; intros seen S; [exact I|].
  cbn [first_occurrences].
  pose proof (separable_tail _ _ S) as St.
  destruct (decide (p ∈ seen)); [now apply IH|].
  apply separable_cons.
  - exact (separable_head _ _ S).
  - intros N. destruct rest as [|q rest]; [now destruct N|]. simpl in S. tauto.
  - now apply IH.
Qed.

Lemma first_occurrences_nonempty (parts : list string) :
  parts <> [] -> first_occurrences ∅ parts <> [].
Proof.
  destruct parts as [|p rest]; [contradiction|]. intros _. simpl.
  destruct (decide (p ∈ ∅)) as [E|_]; [now apply elem_of_empty in E | discriminate].
Qed.

(** Without the [strip] in front, presenting is idempotent. *)
Lemma present_text_idempotent (text : string) :
  present_text (present_text text) = present_text text.
Proof.
  unfold present_text. rewrite !dedupe_loop_spec. simpl.
  set (kept := first_occurrences ∅ (split blank_line text)).
  assert (K : split blank_line (join blank_line kept) = kept).
  { apply split_join.
    - apply first_occurrences_nonempty, split_nonempty.
    - apply first_occurrences_separable, split_separable. }
  rewrite K. f_equal. apply first_occurrences_id.
  - apply first_occurrences_NoDup.
  - intros x _. apply not_elem_of_empty.
Qed.

Lemma present_response_text (team_response : PyVal) (out : string) :
  present_response team_response = Ok out -> exists text, out = present_text text.
Proof.
  unfold present_response. destruct (strip_method _); [|discriminate].
  intros E. injection E as <-. eauto.
Qed.

(** C7, as stated, fails.  The second copy of the first segment is dropped,
    which leaves the blank at the end of the second segment at the end of
    the output; presenting the output again strips it. *)
Lemma present_response_not_idempotent :
  let response := PyStr ("a" +:+ blank_line +:+ "b " +:+ blank_line +:+ "a") in
  let once := "a" +:+ blank_line +:+ "b " in
  let twice := "a" +:+ blank_line +:+ "b" in
  present_response response = Ok once /\
  present_response (PyStr once) = Ok twice /\
  once <> twice.
Proof.
  split; [|split]; [vm_compute; reflexivity | vm_compute; reflexivity | discriminate].
Qed.

Lemma length_append (a b : string) :
  String.length (a +:+ b) = String.length a + String.length b.
Proof.
  induction a as [|c a IH]; simpl; [reflexivity | now rewrite IH].
Qed.

Lemma lstrip_length (s : string) :
  String.length (lstrip s) <= String.length s /\
  (String.length (lstrip s) = String.length s -> lstrip s = s).
Proof.
  induction s as [|c s [IH _]]; simpl; [split; [lia | reflexivity]|].
  destruct (isspace c); simpl; split; try lia; reflexivity.
Qed.

Lemma rstrip_length (s : string) :
  String.length (rstrip s) <= String.length s /\
  (String.length (rstrip s) = String.length s -> rstrip s = s).
Proof.
  induction s as [|c s [IH1 IH2]]; simpl; [split; [lia | reflexivity]|].
  destruct (rstrip s) as [|d r] eqn:R.
  - destruct (isspace c); simpl in *; split; try lia.
    intros E. assert (L : String.length s = 0) by lia.
    destruct s; [reflexivity | discriminate].
  - simpl in *. split; [lia|]. intros E. now rewrite IH2 by lia.
Qed.

(** [strip] never lengthens a text, and keeps its length only when it
    keeps the text. *)
Lemma strip_length (s : string) :
  String.length (strip s) <= String.length s /\
  (String.length (strip s) = String.length s -> strip s = s).
Proof.
  unfold strip.
  destruct (lstrip_length s) as [L1 L2], (rstrip_length (lstrip s)) as [R1 R2].
  split; [lia|]. intros E.
  rewrite R2 by lia. apply L2. lia.
Qed.

Lemma first_occurrences_length (seen : gset string) (parts : list string) :
  String.length (join blank_line (first_occurrences seen parts))
  <= String.length (join blank_line parts).
Proof.
  revert seen. induction parts as [|p rest IH]; intros seen; [simpl; lia|].
  cbn [first_occurrences].
  assert (T : String.length (join blank_line rest)
              <= String.length (join blank_line (p :: rest))).
  { destruct rest as [|r rest]; [simpl; lia|].
    rewrite (join_cons _ p (r :: rest)), !length_append by discriminate. lia. }
  destruct (decide (p ∈ seen)); [specialize (IH seen); lia|].
  specialize (IH ({[p]} ∪ seen)).
  destruct (first_occurrences ({[p]} ∪ seen) rest) as [|q kept] eqn:K.
  - destruct rest as [|r rest]; [simpl; lia|].
    rewrite (join_cons _ p (r :: rest)), !length_append by discriminate. simpl. lia.
  - destruct rest as [|r rest]; [discriminate|].
    rewrite (join_cons _ p (q :: kept)), (join_cons _ p (r :: rest)), !length_append
      by discriminate.
    lia.
Qed.

(** Presenting never lengthens a text. *)
Lemma present_text_length (text : string) :
  String.length (present_text text) <= String.length text.
Proof.
  unfold present_text. rewrite dedupe_loop_spec. simpl.
  rewrite <- (join_split text) at 2. apply first_occurrences_length.
Qed.

(** C7, amended.  Presenting an output of the presenter again returns it
    unchanged exactly when that output has no white space at either end,
    that is, when [strip] leaves it as it is. *)
Theorem present_response_idempotent_stripped (team_response : PyVal) (out : string) :
  present_response team_response = Ok out ->
  (present_response (PyStr out) = Ok out <-> strip out = out).
Proof.
  intros P. apply present_response_text in P. destruct P as [text ->].
  set (out := present_text text).
  assert (E : present_response (PyStr out) = Ok (present_text (strip out))) by reflexivity.
  rewrite E. split.
  - intros H. injection H as H.
    destruct (strip_length out) as [L1 L2]. apply L2.
    pose proof (present_text_length (strip out)) as L3. rewrite H in L3. lia.
  - intros S. rewrite S. unfold out. now rewrite present_text_idempotent.
Qed.

(** The output for a report that repeats its summary block. *)
Lemma present_response_idempotent_stripped_witness :
  let response :=
    PyStr ("Summary" +:+ blank_line +:+ "Risks" +:+ blank_line +:+ "Summary" +:+ nl) in
  present_response (PyStr ("Summary" +:+ blank_line +:+ "Risks"))
  = Ok ("Summary" +:+ blank_line +:+ "Risks").
Proof.
  intros response.
  exact (proj2 (present_response_idempotent_stripped response
                  ("Summary" +:+ blank_line +:+ "Risks") eq_refl) eq_refl).
Defined.

End Presenter.

(** ** The end-to-end scenarios *)

Section Scenarios.

Import Simple Scenario.

(** "TRUMP" in capitals, in a query with no other keyword, makes the query
    a [fact_check] one; [lower] stands in for the interpreter's
    lower-casing. *)
Lemma classify_priority_witness : classify "Is TRUMP right?" = "fact_check".
Proof.
  assert (R : forall pre word suf, letters word = true ->
            exists pre' suf', lower (pre +:+ word +:+ suf) = pre' +:+ lower word +:+ suf').
  { intros pre word suf _. exists (lower pre), (lower suf). now rewrite !lower_app. }
  destruct (classify_priority lower "Is TRUMP right?" R) as [_ [_ [_ [_ [G [_ [_ E]]]]]]].
  rewrite E.
  exact (G "trump" "TRUMP" "Is " " right?" (or_introl eq_refl) eq_refl eq_refl).
Defined.

(** The search finds nothing about the premise, or only a rumour: the
    answer is the matching clarifying text and the team is not called. *)
Lemma route_dispatch_witness :
  route (answering "{}") venezuela_query [] =
    ([Call WebAgent venezuela_query],
     Ok (PyStr "⚠️ No recent reports confirm this. No evidence found in recent reports. Would you like me to run a hypothetical analysis instead?")) /\
  route (scripted (Ok (run_response (PyStr "So far only a Rumor."))) (Ok PyNone) (Ok PyNone))
        venezuela_query [] =
    ([Call WebAgent venezuela_query],
     Ok (PyStr "🤔 I couldn’t fully verify this. Conflicting or insufficient evidence. Should I proceed hypothetically?")).
Proof.
  split.
  - exact (proj1 (proj2 (proj2 (route_dispatch (answering "{}") venezuela_query []))
                   (run_response (PyStr "No results found.")) eq_refl eq_refl)
             eq_refl).
  - exact (proj2 (proj2 (proj2 (route_dispatch
                                  (scripted (Ok (run_response (PyStr "So far only a Rumor.")))
                                            (Ok PyNone) (Ok PyNone))
                                  venezuela_query []))
                   (run_response (PyStr "So far only a Rumor.")) eq_refl eq_refl)
             eq_refl).
Defined.

(** The chip query is [finance_only]: the team is called with the query as
    it is, the fact checker is skipped. *)
Lemma fact_check_precedes_dispatch_witness :
  fst (route (answering "{}") chips_query []) = [Call Team chips_query] /\
  calls WebAgent (fst (route (answering "{}") chips_query [])) = 0.
Proof.
  exact (proj2 (fact_check_precedes_dispatch (answering "{}") chips_query []) eq_refl).
Defined.

(** "ExIt" ends both loops, "BYE" the loop of the validated team. *)
Lemma reserved_tokens_end_loop_witness :
  Simple.finance_team_loop (answering "{}") ["ExIt"; chips_query] [] =
    ([Input "😎 User : " "ExIt"; Print "👋 Exiting Finance Team."], Ok Exited) /\
  Structured.validated_finance_team_loop Json.loads (answering "{}") ["BYE"; chips_query] [] =
    ([Input "Ask the Validated Finance Team: " "BYE";
      Print "👋 Thanks for using Validated Finance Team!"], Ok Exited).
Proof.
  split.
  - exact (proj2 (reserved_tokens_end_loop Json.loads (answering "{}") "ExIt" [chips_query] [])
             (or_introl eq_refl)).
  - exact (proj1 (reserved_tokens_end_loop Json.loads (answering "{}") "BYE" [chips_query] [])
             (or_intror (or_intror (or_introl eq_refl)))).
Defined.

(** A team response that is a dict with a "text" entry only. *)
Lemma present_response_shapes_witness :
  Structured.present_response (PyDict [("text", PyStr "Report.")]) =
    Raise (AttributeError PyNone "strip").
Proof.
  exact (proj1 (present_response_shapes [("text", PyStr "Report.")]
                  {| obj_class := "RunResponse"; obj_truthy := true;
                     obj_str := EmptyString; obj_repr := EmptyString |})
           eq_refl).
Defined.

End Scenarios.

(** ** More on the presenter *)

Section PresenterSegments.

Import Structured.

Lemma first_occurrences_In (seen : gset string) (parts : list string) (p : string) :
  In p parts -> p ∉ seen -> In p (first_occurrences seen parts).
Proof.
  revert seen. induction parts as [|q rest IH]; intros seen H N; [contradiction|].
  cbn [first_occurrences].
  destruct (decide (q ∈ seen)) as [Q|Q].
  - destruct H as [->|H]; [contradiction | now apply IH].
  - destruct (string_dec q p) as [->|D]; [now left|].
    right. destruct H as [H|H]; [contradiction|]. apply IH; [exact H|].
    rewrite elem_of_union, elem_of_singleton. intros [E|E]; [congruence | contradiction].
Qed.

(** The segments of the presented text are the first occurrences of the
    segments of the text. *)
Lemma present_text_segments (text : string) :
  split blank_line (present_text text) = first_occurrences ∅ (split blank_line text).
Proof.
  unfold present_text. rewrite dedupe_loop_spec. simpl.
  apply split_join.
  - apply first_occurrences_nonempty, split_nonempty.
  - apply first_occurrences_separable, split_separable.
Qed.

Lemma present_response_str (s : string) :
  present_response (PyStr s) = Ok (present_text (strip s)).
Proof. reflexivity. Qed.

(** Whatever the shape of the response, the text that is split is the
    result of a [strip]. *)
Lemma present_response_stripped (team_response : PyVal) (out : string) :
  present_response team_response = Ok out -> exists s, out = present_text (strip s).
Proof.
  unfold present_response, strip_method.
  destruct (py_or _ _) as [| | | |s| | |]; try discriminate.
  intros E. injection E as <-. now exists s.
Qed.

Lemma lstrip_head (s : string) :
  lstrip s = EmptyString \/ exists c t, lstrip s = String c t /\ isspace c = false.
Proof.
  induction s as [|c s IH]; simpl; [now left|].
  destruct (isspace c) eqn:C; [exact IH | right; eauto].
Qed.

Lemma rstrip_nonspace (c : ascii) (t : string) :
  isspace c = false -> rstrip (String c t) = String c (rstrip t).
Proof.
  intros C. simpl. destruct (rstrip t); [now rewrite C | reflexivity].
Qed.

(** A stripped text is empty or starts with a character that is not white
    space. *)
Lemma strip_head (s : string) :
  strip s = EmptyString \/ exists c t, strip s = String c t /\ isspace c = false.
Proof.
  unfold strip. destruct (lstrip_head s) as [E | [c [t [E C]]]]; rewrite E.
  - now left.
  - right. exists c, (rstrip t). split; [now apply rstrip_nonspace | exact C].
Qed.

Lemma present_text_head (c : ascii) (t : string) :
  isspace c = false -> exists t', present_text (String c t) = String c t'.
Proof.
  intros C. unfold present_text. rewrite dedupe_loop_spec. simpl app.
  rewrite split_other.
  - pose proof (split_nonempty t) as N.
    destruct (split blank_line t) as [|p rest]; [contradiction|].
    cbn [push_head first_occurrences].
    destruct (decide (String c p ∈ ∅)) as [E|_]; [now apply elem_of_empty in E|].
    destruct (first_occurrences _ rest); simpl; eauto.
  - destruct (startswith blank_line (String c t)) eqn:F; [|reflexivity].
    apply startswith_blank_line in F. destruct F as [-> _]. discriminate.
Qed.

(** X1.  The presenter keeps every segment of the stripped text exactly
    once, at the place of its first occurrence: the segments of the output
    are pairwise distinct, they are the same segments as those of the
    stripped text, and the output is not longer than the text. *)
Theorem present_response_segments (s : string) :
  let parts := split blank_line (strip s) in
  exists out,
    present_response (PyStr s) = Ok out /\
    split blank_line out = first_occurrences ∅ parts /\
    List.NoDup (split blank_line out) /\
    (forall p, In p (split blank_line out) <-> In p parts) /\
    String.length out <= String.length s.
Proof.
  intros parts. exists (present_text (strip s)).
  split; [apply present_response_str|].
  rewrite present_text_segments. fold parts.
  split; [reflexivity|]. split; [apply first_occurrences_NoDup|]. split.
  - intros p. split.
    + intros H. now apply first_occurrences_fresh in H.
    + intros H. apply first_occurrences_In; [exact H | apply not_elem_of_empty].
  - pose proof (present_text_length (strip s)).
    destruct (strip_length s). lia.
Qed.

(** X2.  A text whose segments are pairwise distinct comes back as it is,
    stripped: nothing is dropped and nothing is moved. *)
Theorem present_response_distinct (s : string) :
  List.NoDup (split blank_line (strip s)) ->
  present_response (PyStr s) = Ok (strip s).
Proof.
  intros D. rewrite present_response_str. f_equal.
  unfold present_text. rewrite dedupe_loop_spec. simpl app.
  rewrite first_occurrences_id.
  - apply join_split.
  - exact D.
  - intros x _. apply not_elem_of_empty.
Qed.

Lemma present_response_distinct_witness :
  present_response (PyStr ("  Summary" +:+ blank_line +:+ "Risks" +:+ nl))
  = Ok ("Summary" +:+ blank_line +:+ "Risks").
Proof.
  apply (present_response_distinct ("  Summary" +:+ blank_line +:+ "Risks" +:+ nl)).
  vm_compute. repeat constructor; simpl; intuition discriminate.
Defined.

(** X3.  Whatever the shape of the team response, a text the presenter
    returns never starts with white space and never holds the same segment
    twice. *)
Theorem present_response_output (team_response : PyVal) (out : string) :
  present_response team_response = Ok out ->
  lstrip out = out /\ List.NoDup (split blank_line out).
Proof.
  intros P. apply present_response_stripped in P. destruct P as [s ->]. split.
  - destruct (strip_head s) as [E | [c [t [E C]]]]; rewrite E; [reflexivity|].
    destruct (present_text_head c t C) as [t' ->]. simpl. now rewrite C.
  - rewrite present_text_segments. apply first_occurrences_NoDup.
Qed.

Lemma present_response_output_witness :
  let out := "Summary" +:+ blank_line +:+ "Risks " in
  lstrip out = out /\ List.NoDup (split blank_line out).
Proof.
  intros out.
  apply (present_response_output
           (PyDict [("content", PyStr (nl +:+ "Summary" +:+ blank_line +:+ "Risks "
                                        +:+ blank_line +:+ "Summary"))])).
  vm_compute. reflexivity.
Defined.

End PresenterSegments.

(** ** More on the classifier and the gate-then-clarify router *)

Section SimpleRouterMore.

Import Simple Scenario.

Lemma append_assoc (a b c : string) : (a +:+ b) +:+ c = a +:+ (b +:+ c).
Proof.
  induction a as [|x a IH]; [reflexivity|].
  change (String x ((a +:+ b) +:+ c) = String x (a +:+ (b +:+ c))). now f_equal.
Qed.

Lemma Contains_embedded (k q pre suf : string) :
  Contains k q -> Contains k (pre +:+ q +:+ suf).
Proof.
  intros [a [b ->]]. exists (pre +:+ a), (b +:+ suf).
  now rewrite !append_assoc.
Qed.

Lemma any_in_embedded (keywords : list string) (query pre suf : string) :
  any_in keywords (lower query) = true ->
  any_in keywords (lower (pre +:+ query +:+ suf)) = true.
Proof.
  rewrite !any_in_spec, !lower_app. intros [k [K C]].
  exists k. split; [exact K | now apply Contains_embedded].
Qed.

(** X4.  Text around a query cannot take a classification away: a query
    that is [fact_check] stays [fact_check] inside any longer query, and a
    query that is [finance_only] never becomes [mixed]. *)
Theorem classify_embedded (query pre suf : string) :
  (classify query = "fact_check" ->
     classify (pre +:+ query +:+ suf) = "fact_check") /\
  (classify query = "finance_only" ->
     classify (pre +:+ query +:+ suf) <> "mixed").
Proof.
  unfold classify.
  pose proof (any_in_embedded geopolitical_keywords query pre suf) as G.
  pose proof (any_in_embedded ticker_keywords query pre suf) as T.
  destruct (any_in geopolitical_keywords (lower query)).
  - rewrite G by reflexivity. split; [reflexivity | discriminate].
  - destruct (any_in ticker_keywords (lower query)).
    + rewrite T by reflexivity. split; [discriminate|].
      intros _. destruct (any_in geopolitical_keywords _); discriminate.
    + split; discriminate.
Qed.

Lemma classify_embedded_witness :
  classify ("Tell me: " +:+ "is there a WAR?" +:+ " And how is NVDA doing?") = "fact_check".
Proof.
  exact (proj1 (classify_embedded "is there a WAR?" "Tell me: " " And how is NVDA doing?")
           eq_refl).
Defined.

Lemma lower_length (s : string) : String.length (lower s) = String.length s.
Proof.
  induction s as [|c s IH]; simpl; [reflexivity | now rewrite IH].
Qed.

Lemma Contains_length (k q : string) :
  Contains k q -> String.length k <= String.length q.
Proof.
  intros [a [b ->]]. rewrite !length_append. lia.
Qed.

Lemma keywords_length (k : string) :
  In k geopolitical_keywords \/ In k ticker_keywords -> 2 <= String.length k.
Proof.
  unfold geopolitical_keywords, ticker_keywords. simpl.
  intros [H|H]; repeat (destruct H as [<-|H]; [simpl; lia|]); contradiction.
Qed.

Lemma route_history (world : Oracle) (query : string) (h : History) :
  (classify query = "finance_only" /\
   fst (route world query h) = h ++ [Call Team query]) \/
  (classify query <> "finance_only" /\
   (fst (route world query h) = h ++ [Call WebAgent query] \/
    fst (route world query h) = h ++ [Call WebAgent query; Call Team query])).
Proof.
  destruct (string_dec (classify query) "finance_only") as [C|C].
  - left. split; [exact C|]. now rewrite route_finance_only, run_agents_events.
  - right. split; [exact C|].
    destruct (world h WebAgent query) as [v|e] eqn:W.
    + rewrite (route_checked world query h v C W).
      destruct (verdict_status_range v) as [S|[S|S]]; rewrite S; simpl; auto.
      right. now rewrite run_agents_events, <- app_assoc.
    + rewrite (route_check_raises world query h e C W). now left.
Qed.

(** X5.  A query of at most one character, the empty line included, holds
    no keyword: it is [mixed], and routing it starts with a fact check. *)
Theorem classify_short_query (world : Oracle) (query : string) (h : History) :
  String.length query <= 1 ->
  classify query = "mixed" /\
  exists rest, fst (route world query h) = h ++ Call WebAgent query :: rest.
Proof.
  intros L.
  assert (N : forall keywords,
             (forall k, In k keywords -> 2 <= String.length k) ->
             any_in keywords (lower query) = false).
  { intros keywords K. apply any_in_false. intros [k [I C]].
    apply Contains_length in C. rewrite lower_length in C.
    specialize (K k I). lia. }
  assert (M : classify query = "mixed").
  { unfold classify. rewrite !N; [reflexivity | |];
      intros k I; apply keywords_length; auto. }
  split; [exact M|].
  destruct (route_history world query h) as [[C _] | [_ [E|E]]].
  - rewrite M in C. discriminate.
  - rewrite E. now exists [].
  - rewrite E. now exists [Call Team query].
Qed.

Lemma classify_short_query_witness :
  classify "?" = "mixed" /\
  exists rest, fst (route (answering "{}") "?" []) = [] ++ Call WebAgent "?" :: rest.
Proof.
  apply (classify_short_query (answering "{}") "?" []). simpl. lia.
Defined.

(** X6.  All [route] does to the outside is call the research agent at most
    once and then the team at most once, each with the query as it was
    given: it prints nothing and never calls the validator. *)
Theorem route_calls (world : Oracle) (query : string) (h : History) :
  exists added,
    fst (route world query h) = h ++ added /\
    (added = [Call Team query] \/ added = [Call WebAgent query] \/
     added = [Call WebAgent query; Call Team query]) /\
    calls WebAgent added <= 1 /\ calls Team added <= 1 /\ calls Validator added = 0 /\
    List.filter is_print added = [].
Proof.
  destruct (route_history world query h) as [[_ E] | [_ [E|E]]]; rewrite E;
    eexists; (split; [reflexivity|]); unfold calls; simpl; intuition lia.
Qed.

Lemma run_agents_raises (world : Oracle) (query : string) (h : History) (e : PyExn) :
  snd (run_agents world query h) = Raise e -> world h Team query = Raise e.
Proof.
  unfold run_agents, bind, call, ret.
  destruct (world h Team query) as [r|e']; [|simpl; congruence].
  destruct r as [| | | | | |entries|info [c|]]; try discriminate.
  destruct (dict_lookup "content" entries); discriminate.
Qed.

(** X7.  [route] raises nothing of its own: an exception it ends with was
    raised by the research agent or by the team. *)
Theorem route_raises (world : Oracle) (query : string) (h : History) (e : PyExn) :
  snd (route world query h) = Raise e ->
  world h WebAgent query = Raise e \/
  world h Team query = Raise e \/
  world (h ++ [Call WebAgent query]) Team query = Raise e.
Proof.
  intros R.
  destruct (string_dec (classify query) "finance_only") as [C|C].
  - rewrite route_finance_only in R by exact C.
    right. left. now apply run_agents_raises.
  - destruct (world h WebAgent query) as [v|e'] eqn:W.
    + rewrite (route_checked world query h v C W) in R.
      destruct (verdict_status_range v) as [S|[S|S]]; rewrite S in R; simpl in R;
        try discriminate.
      right. right. now apply run_agents_raises.
    + rewrite (route_check_raises world query h e' C W) in R. simpl in R. now left.
Qed.

Lemma route_raises_witness :
  let world := scripted (Raise quota_error) (Ok PyNone) (Ok PyNone) in
  world [] WebAgent "hello" = Raise quota_error \/
  world [] Team "hello" = Raise quota_error \/
  world ([] ++ [Call WebAgent "hello"]) Team "hello" = Raise quota_error.
Proof.
  intros world. exact (route_raises world "hello" [] quota_error eq_refl).
Defined.

(** X8.  When [route] returns without having called the team, what it
    returns is one of two fixed texts: the query and the words of the
    search never appear in the clarifying message. *)
Theorem route_clarifying_texts (world : Oracle) (query : string) (h : History) (r : PyVal) :
  snd (route world query h) = Ok r ->
  calls Team (fst (route world query h)) = calls Team h ->
  r = PyStr "⚠️ No recent reports confirm this. No evidence found in recent reports. Would you like me to run a hypothetical analysis instead?" \/
  r = PyStr "🤔 I couldn’t fully verify this. Conflicting or insufficient evidence. Should I proceed hypothetically?".
Proof.
  intros R T.
  assert (A : forall h', calls Team (fst (run_agents world query h')) = S (calls Team h')).
  { intros h'. rewrite run_agents_events, calls_app. unfold calls. simpl. lia. }
  assert (B : calls Team (h ++ [Call WebAgent query]) = calls Team h).
  { rewrite calls_app. unfold calls. simpl. lia. }
  destruct (string_dec (classify query) "finance_only") as [C|C].
  - rewrite route_finance_only, A in T by exact C. lia.
  - destruct (world h WebAgent query) as [v|e'] eqn:W.
    + rewrite (route_checked world query h v C W) in R, T.
      destruct (verdict_values v) as [V|[V|V]]; rewrite V in R, T; simpl in R, T.
      * left. now injection R as <-.
      * right. now injection R as <-.
      * rewrite A, B in T. lia.
    + rewrite (route_check_raises world query h e' C W) in R. discriminate.
Qed.

Lemma route_clarifying_texts_witness :
  let r := PyStr "⚠️ No recent reports confirm this. No evidence found in recent reports. Would you like me to run a hypothetical analysis instead?" in
  r = PyStr "⚠️ No recent reports confirm this. No evidence found in recent reports. Would you like me to run a hypothetical analysis instead?" \/
  r = PyStr "🤔 I couldn’t fully verify this. Conflicting or insufficient evidence. Should I proceed hypothetically?".
Proof.
  intros r.
  exact (route_clarifying_texts (answering "{}") venezuela_query [] r eq_refl eq_refl).
Defined.

End SimpleRouterMore.

(** ** More on the validation-first routers *)

Section ValidationRouterMore.

Import Structured Scenario.

Variable json_loads : string -> option PyVal.
Variable world : Oracle.

Lemma calls_cons (c : Callee) (e : Event) (h : History) :
  calls c (e :: h) = (if is_call c e then 1 else 0) + calls c h.
Proof.
  unfold calls. simpl. now destruct (is_call c e).
Qed.

(** The three ways a run of [route] can go, by what the validator does. *)
Lemma route_structure (query : string) (h : History) :
  let asked := h ++ [Print "Validating news claims..."] in
  (exists e,
      world asked Validator (validator_request query) = Raise e /\
      route json_loads world query h =
        (asked ++ [Call Validator (validator_request query)], Raise e)) \/
  (exists r val_json,
      world asked Validator (validator_request query) = Ok r /\
      val_json = safe_parse_json json_loads (getattr_content r (PyStr (py_str r))) /\
      (forall entries, val_json <> PyDict entries) /\
      route json_loads world query h =
        (validated h query, Raise (AttributeError val_json "get"))) \/
  (exists r entries prompt,
      world asked Validator (validator_request query) = Ok r /\
      safe_parse_json json_loads (getattr_content r (PyStr (py_str r))) = PyDict entries /\
      prompt =
        enhanced_prompt query
          (dict_get entries "status" (PyStr "uncertain"))
          (dict_get entries "summary" (PyStr EmptyString))
          (dict_get entries "sources" (PyList [])) /\
      route json_loads world query h =
        (validated h query ++ [Call Team prompt],
         match world (validated h query) Team prompt with
         | Ok team_response => present_response team_response
         | Raise e => Raise e
         end)).
Proof.
  intros asked.
  destruct (world asked Validator (validator_request query)) as [r|e] eqn:W.
  - destruct (safe_parse_json json_loads (getattr_content r (PyStr (py_str r))))
      as [| | | | | |entries|] eqn:J.
    7: { right. right. exists r, entries. eexists.
         split; [reflexivity|]. split; [exact J|]. split; [reflexivity|].
         exact (route_dict json_loads world query h r entries W J). }
    all: right; left; exists r; eexists;
      (split; [reflexivity|]); (split; [symmetry; exact J|]); (split; [discriminate|]);
      rewrite <- J; apply (route_not_dict json_loads world query h r W);
      rewrite J; discriminate.
  - left. exists e. split; [reflexivity|].
    unfold asked. rewrite <- app_assoc.
    exact (route_validator_raises json_loads world query h e W).
Qed.

(** X9.  When the validator's answer decodes to a JSON object, [route]
    calls the team exactly once, after the validator, with a prompt that
    holds the query and the object's status, summary and sources as
    printed by [str] (the defaults "uncertain", empty and [[]] for missing
    keys), and returns the presented team response. *)
Theorem route_forwards_object (query : string) (h : History) (r : PyVal)
    (entries : list (string * PyVal)) :
  world (h ++ [Print "Validating news claims..."]) Validator (validator_request query) = Ok r ->
  safe_parse_json json_loads (getattr_content r (PyStr (py_str r))) = PyDict entries ->
  exists prompt,
    fst (route json_loads world query h) = validated h query ++ [Call Team prompt] /\
    calls Team (fst (route json_loads world query h)) = S (calls Team h) /\
    snd (route json_loads world query h) =
      match world (validated h query) Team prompt with
      | Ok team_response => present_response team_response
      | Raise e => Raise e
      end /\
    Contains ("ORIGINAL USER QUERY: " +:+ query +:+ nl) prompt /\
    Contains ("FACT-CHECK STATUS: " +:+
              py_str (dict_get entries "status" (PyStr "uncertain")) +:+ nl) prompt /\
    Contains ("FACT-CHECK SUMMARY: " +:+
              py_str (dict_get entries "summary" (PyStr EmptyString)) +:+ nl) prompt /\
    Contains ("SOURCES: " +:+ py_str (dict_get entries "sources" (PyList [])) +:+ nl) prompt.
Proof.
  intros W J. eexists.
  rewrite (route_dict json_loads world query h r entries W J).
  split; [reflexivity|]. split; [|split; [reflexivity|]].
  - unfold validated. simpl fst. rewrite !calls_app. unfold calls. simpl. lia.
  - unfold enhanced_prompt.
    set (st := py_str (dict_get entries "status" (PyStr "uncertain"))).
    set (su := py_str (dict_get entries "summary" (PyStr EmptyString))).
    set (so := py_str (dict_get entries "sources" (PyList []))).
    repeat split.
    + exists (nl +:+ indent). eexists. rewrite !append_assoc. reflexivity.
    + exists (nl +:+ indent +:+ "ORIGINAL USER QUERY: " +:+ query +:+ nl +:+ nl +:+ indent).
      eexists. rewrite !append_assoc. reflexivity.
    + exists (nl +:+ indent +:+ "ORIGINAL USER QUERY: " +:+ query +:+ nl +:+ nl +:+ indent +:+
              "FACT-CHECK STATUS: " +:+ st +:+ nl +:+ indent).
      eexists. rewrite !append_assoc. reflexivity.
    + exists (nl +:+ indent +:+ "ORIGINAL USER QUERY: " +:+ query +:+ nl +:+ nl +:+ indent +:+
              "FACT-CHECK STATUS: " +:+ st +:+ nl +:+ indent +:+
              "FACT-CHECK SUMMARY: " +:+ su +:+ nl +:+ indent).
      eexists. rewrite !append_assoc. reflexivity.
Qed.

(** X10.  Every run of [route] starts with the first progress line and one
    call of the validator, asked about the query as it was given.  After
    that the validator is not called again, the research agent is never
    called, and the team is called at most once. *)
Theorem route_validator_first (query : string) (h : History) :
  exists added,
    fst (route json_loads world query h) =
      h ++ Print "Validating news claims..."
        :: Call Validator (validator_request query) :: added /\
    calls Validator added = 0 /\ calls WebAgent added = 0 /\ calls Team added <= 1.
Proof.
  destruct (route_structure query h)
    as [[e [_ R]] | [[r [v [_ [_ [_ R]]]]] | [r [entries [prompt [_ [_ [_ R]]]]]]]];
    rewrite R; unfold validated; simpl fst.
  - exists []. rewrite <- app_assoc. repeat split; unfold calls; simpl; lia.
  - eexists. split; [reflexivity|]. unfold calls; simpl; lia.
  - eexists. rewrite <- app_assoc. split; [reflexivity|]. unfold calls; simpl; lia.
Qed.

Lemma present_response_raises (team_response : PyVal) (e : PyExn) :
  present_response team_response = Raise e ->
  exn_class e = "AttributeError" /\ exn_is_exception e = true.
Proof.
  unfold present_response, strip_method.
  destruct (py_or _ _); try discriminate; intros E; injection E as <-; now split.
Qed.

(** What [route] can end with when it raises. *)
Lemma route_raise_cases (query : string) (h : History) (e : PyExn) :
  snd (route json_loads world query h) = Raise e ->
  world (h ++ [Print "Validating news claims..."]) Validator (validator_request query)
    = Raise e \/
  (exists prompt, world (validated h query) Team prompt = Raise e) \/
  (exn_class e = "AttributeError" /\ exn_is_exception e = true).
Proof.
  intros R.
  destruct (route_structure query h)
    as [[e' [W E]] | [[r [v [_ [_ [_ E]]]]] | [r [entries [prompt [_ [_ [_ E]]]]]]]];
    rewrite E in R; simpl in R.
  - left. congruence.
  - right. right. injection R as <-. now split.
  - destruct (world (validated h query) Team prompt) as [t|e'] eqn:T.
    + right. right. now apply present_response_raises in R.
    + right. left. exists prompt. congruence.
Qed.

(** X11.  An exception [route] ends with is the validator's, the team's, or
    an [AttributeError] of its own (from [.get] on an answer that is not an
    object, or from [.strip] on a content that is not text). *)
Theorem route_failures (query : string) (h : History) (e : PyExn) :
  snd (route json_loads world query h) = Raise e ->
  world (h ++ [Print "Validating news claims..."]) Validator (validator_request query)
    = Raise e \/
  (exists prompt, world (validated h query) Team prompt = Raise e) \/
  exn_class e = "AttributeError".
Proof.
  intros R. destruct (route_raise_cases query h e R) as [H|[H|[H _]]]; auto.
Qed.

End ValidationRouterMore.

Section ValidationRouterMoreRuns.

Import Structured Scenario.

Lemma route_failures_witness :
  let world := scripted (Ok PyNone) (Ok (PyDict [])) (Ok (PyStr "{}")) in
  let e := AttributeError PyNone "strip" in
  world ([] ++ [Print "Validating news claims..."]) Validator (validator_request "q") = Raise e \/
  (exists prompt, world (validated [] "q") Team prompt = Raise e) \/
  exn_class e = "AttributeError".
Proof.
  intros world e.
  apply (route_failures Json.loads world "q" [] e). vm_compute. reflexivity.
Defined.

End ValidationRouterMoreRuns.

Section ValidationRouterObjectRun.

Import Structured Scenario.

(** The mandated answer: the team is asked once, and the prompt carries
    the status, the summary and the source list. *)
Lemma route_forwards_object_witness :
  exists prompt,
    calls Team (fst (route Json.loads (answering confirmed_answer) "Tesla recall" [])) = 1 /\
    Contains ("FACT-CHECK STATUS: confirmed" +:+ nl) prompt /\
    Contains ("FACT-CHECK SUMMARY: Recall confirmed." +:+ nl) prompt /\
    Contains ("SOURCES: ['Reuters (2025-01-10)']" +:+ nl) prompt.
Proof.
  destruct (route_forwards_object Json.loads (answering confirmed_answer) "Tesla recall" []
              (run_response (PyStr confirmed_answer))
              [("status", PyStr "confirmed"); ("summary", PyStr "Recall confirmed.");
               ("sources", PyList [PyStr "Reuters (2025-01-10)"])])
    as [prompt [_ [T [_ [_ [St [Su So]]]]]]].
  - reflexivity.
  - vm_compute. reflexivity.
  - exists prompt. repeat split; assumption.
Defined.

End ValidationRouterObjectRun.

Section EarlierRouterMore.

Import Earlier Scenario.

Variable world : Oracle.

(** X12.  The earlier router has no parsing step and no presenter: once the
    validator has answered, the team is called exactly once with a prompt
    that holds the query and the validator's answer as [str] prints it, and
    what the team returns or raises is the result as it is. *)
Theorem earlier_route_passes_on (query : string) (h : History) (r : PyVal) :
  world (h ++ [Print "🔍 Validating news claims..."]) Validator (validator_request query) = Ok r ->
  let reached := h ++ [Print "🔍 Validating news claims...";
                       Call Validator (validator_request query);
                       Print "✅ Validation complete. Proceeding with analysis..."] in
  let prompt := enhanced_prompt query r in
  route world query h = (reached ++ [Call Team prompt], world reached Team prompt) /\
  calls Team (fst (route world query h)) = S (calls Team h) /\
  Contains ("ORIGINAL USER QUERY: " +:+ query +:+ nl) prompt /\
  Contains ("VALIDATION RESULTS:" +:+ nl +:+ indent +:+ py_str r +:+ nl) prompt.
Proof.
  intros W reached prompt.
  pose proof (earlier_route_forwards world query h r W) as R. cbv zeta in R.
  fold reached prompt in R. rewrite R.
  split; [reflexivity|]. split; [|split].
  - unfold reached. simpl fst. rewrite !calls_app. unfold calls. simpl. lia.
  - exists (nl +:+ indent). eexists. unfold prompt, enhanced_prompt.
    rewrite !append_assoc. reflexivity.
  - exists (nl +:+ indent +:+ "ORIGINAL USER QUERY: " +:+ query +:+ nl +:+ indent +:+ nl +:+ indent).
    eexists. unfold prompt, enhanced_prompt. rewrite !append_assoc. reflexivity.
Qed.

End EarlierRouterMore.

Section EarlierRouterRun.

Import Earlier Scenario.

Lemma earlier_route_passes_on_witness :
  snd (route (answering "Partially true.") "Tesla recall" [])
  = Ok (run_response (PyStr "Report.")).
Proof.
  destruct (earlier_route_passes_on (answering "Partially true.") "Tesla recall" []
              (run_response (PyStr "Partially true.")) eq_refl) as [R _].
  rewrite R. reflexivity.
Defined.

End EarlierRouterRun.

(** ** More on the interactive loops *)

Section LoopSteps.

Variable json_loads : string -> option PyVal.
Variable world : Oracle.

Lemma reserved_one_of (x : string) :
  x ∈ ({["exit"; "quit"; "bye"]} : gset string) <->
  one_of x ["exit"; "quit"; "bye"] = true.
Proof.
  rewrite one_of_spec, !elem_of_union, !elem_of_singleton. simpl.
  split.
  - intros [[E|E]|E]; subst; auto.
  - intros [E|[E|[E|[]]]]; subst; auto.
Qed.

(** One line of the loop of [main.py]. *)
Lemma simple_loop_cons (line : string) (rest : list string) (h : History) :
  Simple.finance_team_loop world (line :: rest) h =
    if one_of (lower line) ["exit"; "quit"] then
      (h ++ [Input "😎 User : " line; Print "👋 Exiting Finance Team."], Ok Exited)
    else
      match Simple.route world line (h ++ [Input "😎 User : " line]) with
      | (h1, Ok response) =>
          Simple.finance_team_loop world rest
            (h1 ++ [Print (nl +:+ "🧠 Response:" +:+ nl +:+ py_str response +:+ nl)])
      | (h1, Raise e) => (h1, Raise e)
      end.
Proof.
  change (Simple.finance_team_loop world (line :: rest) h)
    with ((if one_of (lower line) ["exit"; "quit"]
           then bind (print "👋 Exiting Finance Team.") (fun _ => ret Exited)
           else bind (Simple.route world line)
                  (fun response =>
                     bind (print (nl +:+ "🧠 Response:" +:+ nl +:+ py_str response +:+ nl))
                       (fun _ => Simple.finance_team_loop world rest)))
            (h ++ [Input "😎 User : " line])).
  destruct (one_of (lower line) ["exit"; "quit"]).
  - unfold bind, print, ret. now rewrite <- app_assoc.
  - unfold bind at 1.
    destruct (Simple.route world line (h ++ [Input "😎 User : " line])) as [h1 [response|e]];
      reflexivity.
Qed.

(** One turn of the loop of the validated team. *)
Lemma structured_turn_cases (user_query : string) (h : History) :
  Structured.turn json_loads world user_query h =
    match Structured.route json_loads world user_query
            (h ++ [Print (nl +:+ "🔎 Processing: " +:+ user_query)]) with
    | (h1, Ok response) =>
        (h1 ++ [Print (nl +:+ "📑 **Complete Analysis:**" +:+ nl +:+ response +:+ nl);
                Print Structured.rule], Ok tt)
    | (h1, Raise e) =>
        if exn_is_exception e then
          (h1 ++ [Print ("❌ Error: " +:+ exn_str e);
                  Print ("Please try again with a different query." +:+ nl)], Ok tt)
        else (h1, Raise e)
    end.
Proof.
  unfold Structured.turn, try_except, bind, print.
  destruct (Structured.route json_loads world user_query _) as [h1 [response|e]]; simpl.
  - now rewrite <- app_assoc.
  - destruct (exn_is_exception e); [now rewrite <- app_assoc | reflexivity].
Qed.

(** One line of the loop of the validated team. *)
Lemma structured_loop_cons (line : string) (rest : list string) (h : History) :
  Structured.validated_finance_team_loop json_loads world (line :: rest) h =
    if one_of (lower line) ["exit"; "quit"; "bye"] then
      (h ++ [Input "Ask the Validated Finance Team: " line;
             Print "👋 Thanks for using Validated Finance Team!"], Ok Exited)
    else if String.eqb (strip line) EmptyString then
      Structured.validated_finance_team_loop json_loads world rest
        (h ++ [Input "Ask the Validated Finance Team: " line])
    else
      match Structured.turn json_loads world line
              (h ++ [Input "Ask the Validated Finance Team: " line]) with
      | (h1, Ok _) => Structured.validated_finance_team_loop json_loads world rest h1
      | (h1, Raise e) => (h1, Raise e)
      end.
Proof.
  cbn [Structured.validated_finance_team_loop]. unfold bind at 1. unfold input at 1.
  destruct (decide _) as [T|T].
  - apply reserved_one_of in T. rewrite T.
    unfold bind, print, ret. now rewrite <- app_assoc.
  - destruct (one_of (lower line) ["exit"; "quit"; "bye"]) eqn:O.
    + apply reserved_one_of in O. contradiction.
    + destruct (String.eqb (strip line) EmptyString); [reflexivity|].
      unfold bind.
      destruct (Structured.turn json_loads world line _) as [h1 [[]|e]]; reflexivity.
Qed.

(** One turn and one line of the loop of the earlier validated team. *)
Lemma earlier_turn_cases (user_query : string) (h : History) :
  Earlier.turn world user_query h =
    match Earlier.route world user_query
            (h ++ [Print (nl +:+ "📊 Processing: " +:+ user_query)]) with
    | (h1, Ok response) =>
        (h1 ++ [Print (nl +:+ "📈 **Complete Analysis:**" +:+ nl +:+ py_str response +:+ nl);
                Print Earlier.rule], Ok tt)
    | (h1, Raise e) =>
        if exn_is_exception e then
          (h1 ++ [Print ("❌ Error: " +:+ exn_str e);
                  Print ("Please try again with a different query." +:+ nl)], Ok tt)
        else (h1, Raise e)
    end.
Proof.
  unfold Earlier.turn, try_except, bind, print.
  destruct (Earlier.route world user_query _) as [h1 [response|e]]; simpl.
  - now rewrite <- app_assoc.
  - destruct (exn_is_exception e); [now rewrite <- app_assoc | reflexivity].
Qed.

Lemma earlier_loop_cons (line : string) (rest : list string) (h : History) :
  Earlier.validated_finance_team_loop world (line :: rest) h =
    if one_of (lower line) ["exit"; "quit"; "bye"] then
      (h ++ [Input "💰 Ask the Validated Finance Team: " line;
             Print "👋 Thanks for using Validated Finance Team!"], Ok Exited)
    else if String.eqb (strip line) EmptyString then
      Earlier.validated_finance_team_loop world rest
        (h ++ [Input "💰 Ask the Validated Finance Team: " line])
    else
      match Earlier.turn world line
              (h ++ [Input "💰 Ask the Validated Finance Team: " line]) with
      | (h1, Ok _) => Earlier.validated_finance_team_loop world rest h1
      | (h1, Raise e) => (h1, Raise e)
      end.
Proof.
  cbn [Earlier.validated_finance_team_loop]. unfold bind at 1. unfold input at 1.
  destruct (decide _) as [T|T].
  - apply reserved_one_of in T. rewrite T.
    unfold bind, print, ret. now rewrite <- app_assoc.
  - destruct (one_of (lower line) ["exit"; "quit"; "bye"]) eqn:O.
    + apply reserved_one_of in O. contradiction.
    + destruct (String.eqb (strip line) EmptyString); [reflexivity|].
      unfold bind.
      destruct (Earlier.turn world line _) as [h1 [[]|e]]; reflexivity.
Qed.

Lemma simple_loop_app (before after : list string) (h : History) :
  Simple.finance_team_loop world (before ++ after) h =
    then_loop (Simple.finance_team_loop world before h)
              (Simple.finance_team_loop world after).
Proof.
  revert h. induction before as [|line before IH]; intros h; [reflexivity|].
  rewrite <- app_comm_cons, !simple_loop_cons.
  destruct (one_of _ _); [reflexivity|].
  destruct (Simple.route world line _) as [h1 [response|e]]; [apply IH | reflexivity].
Qed.

Lemma structured_loop_app (before after : list string) (h : History) :
  Structured.validated_finance_team_loop json_loads world (before ++ after) h =
    then_loop (Structured.validated_finance_team_loop json_loads world before h)
              (Structured.validated_finance_team_loop json_loads world after).
Proof.
  revert h. induction before as [|line before IH]; intros h; [reflexivity|].
  rewrite <- app_comm_cons, !structured_loop_cons.
  destruct (one_of _ _); [reflexivity|].
  destruct (String.eqb _ _); [apply IH|].
  destruct (Structured.turn json_loads world line _) as [h1 [[]|e]]; [apply IH | reflexivity].
Qed.

Lemma earlier_loop_app (before after : list string) (h : History) :
  Earlier.validated_finance_team_loop world (before ++ after) h =
    then_loop (Earlier.validated_finance_team_loop world before h)
              (Earlier.validated_finance_team_loop world after).
Proof.
  revert h. induction before as [|line before IH]; intros h; [reflexivity|].
  rewrite <- app_comm_cons, !earlier_loop_cons.
  destruct (one_of _ _); [reflexivity|].
  destruct (String.eqb _ _); [apply IH|].
  destruct (Earlier.turn world line _) as [h1 [[]|e]]; [apply IH | reflexivity].
Qed.

End LoopSteps.

Section LoopProperties.

Import Scenario.

Variable json_loads : string -> option PyVal.
Variable world : Oracle.

(** X13.  The lines are handled one after the other and the only thing a
    line leaves behind is the history: a loop fed [before ++ after] does
    what it does on [before] and, if it is then waiting for input, goes on
    with [after] from there; if it was left or raised on [before], nothing
    of [after] is read.  This holds for the three loops. *)
Theorem loops_compose (before after : list string) (h : History) :
  Simple.finance_team_loop world (before ++ after) h =
    then_loop (Simple.finance_team_loop world before h)
              (Simple.finance_team_loop world after) /\
  Structured.validated_finance_team_loop json_loads world (before ++ after) h =
    then_loop (Structured.validated_finance_team_loop json_loads world before h)
              (Structured.validated_finance_team_loop json_loads world after) /\
  Earlier.validated_finance_team_loop world (before ++ after) h =
    then_loop (Earlier.validated_finance_team_loop world before h)
              (Earlier.validated_finance_team_loop world after).
Proof.
  split; [|split].
  - apply simple_loop_app.
  - apply structured_loop_app.
  - apply earlier_loop_app.
Qed.

Lemma earlier_route_raise (query : string) (h : History) (e : PyExn) :
  snd (Earlier.route world query h) = Raise e ->
  exists h' callee arg, world h' callee arg = Raise e.
Proof.
  unfold Earlier.route, bind, print, call.
  destruct (world _ Validator _) as [r|e'] eqn:V; simpl.
  - intros T. eauto.
  - intros E. injection E as <-. eauto.
Qed.

(** On the console that accepts every text, and with collaborators whose
    failures are instances of [Exception], every failure of a turn is
    caught. *)
Lemma plain_loops_survive (lines : list string) (h : History) :
  (forall h' callee arg e, world h' callee arg = Raise e -> exn_is_exception e = true) ->
  let ending :=
    if existsb (fun line => one_of (lower line) ["exit"; "quit"; "bye"]) lines
    then Exited else AwaitingInput in
  snd (Structured.validated_finance_team_loop json_loads world lines h) = Ok ending /\
  snd (Earlier.validated_finance_team_loop world lines h) = Ok ending.
Proof.
  intros C. cbv zeta. split.
  - revert h. induction lines as [|line rest IH]; intros h; [reflexivity|].
    rewrite structured_loop_cons. cbn [existsb].
    destruct (one_of (lower line) _); [reflexivity|]. cbn [orb].
    destruct (String.eqb _ _); [apply IH|].
    rewrite structured_turn_cases.
    destruct (Structured.route json_loads world line _) as [h1 [response|e]] eqn:R;
      [apply IH|].
    assert (E : exn_is_exception e = true).
    { pose proof (f_equal snd R) as F. cbn [snd] in F.
      apply route_raise_cases in F. destruct F as [W|[[p W]|[_ W]]]; eauto. }
    rewrite E. apply IH.
  - revert h. induction lines as [|line rest IH]; intros h; [reflexivity|].
    rewrite earlier_loop_cons. cbn [existsb].
    destruct (one_of (lower line) _); [reflexivity|]. cbn [orb].
    destruct (String.eqb _ _); [apply IH|].
    rewrite earlier_turn_cases.
    destruct (Earlier.route world line _) as [h1 [response|e]] eqn:R; [apply IH|].
    assert (E : exn_is_exception e = true).
    { pose proof (f_equal snd R) as F. cbn [snd] in F.
      apply earlier_route_raise in F. destruct F as [h' [c [a W]]]. eauto. }
    rewrite E. apply IH.
Qed.

(** X15.  The loop of [main.py] has no handler: when routing a line raises,
    the loop ends with that exception and the lines that follow are never
    read. *)
Theorem simple_loop_stops (before : list string) (line : string) (after : list string)
    (h h1 : History) (e : PyExn) :
  Simple.finance_team_loop world before h = (h1, Ok AwaitingInput) ->
  one_of (lower line) ["exit"; "quit"] = false ->
  snd (Simple.route world line (h1 ++ [Input "😎 User : " line])) = Raise e ->
  Simple.finance_team_loop world (before ++ line :: after) h =
    (fst (Simple.route world line (h1 ++ [Input "😎 User : " line])), Raise e).
Proof.
  intros B T R. rewrite simple_loop_app, B. cbn [then_loop].
  rewrite simple_loop_cons, T.
  destruct (Simple.route world line _) as [h2 [response|e']]; simpl in *; congruence.
Qed.

End LoopProperties.

Section LoopPropertiesRuns.

Import Scenario.

Lemma simple_loop_stops_witness :
  let world := scripted (Raise quota_error) (Ok PyNone) (Ok PyNone) in
  Simple.finance_team_loop world (["NVDA"] ++ "hello" :: ["quit"]) [] =
    ([Input "😎 User : " "NVDA"; Call Team "NVDA";
      Print (nl +:+ "🧠 Response:" +:+ nl +:+ "None" +:+ nl);
      Input "😎 User : " "hello"; Call WebAgent "hello"],
     Raise quota_error).
Proof.
  intros world.
  exact (simple_loop_stops world ["NVDA"] "hello" ["quit"] []
           [Input "😎 User : " "NVDA"; Call Team "NVDA";
            Print (nl +:+ "🧠 Response:" +:+ nl +:+ "None" +:+ nl)]
           quota_error eq_refl eq_refl eq_refl).
Defined.

End LoopPropertiesRuns.

Section LoopCalls.

Import Scenario.

Variable json_loads : string -> option PyVal.
Variable world : Oracle.

Lemma calls_nil (c : Callee) : calls c [] = 0.
Proof. reflexivity. Qed.

Ltac count_calls :=
  repeat (rewrite calls_app || rewrite calls_cons || rewrite calls_nil); simpl; lia.

Lemma structured_route_added (query : string) (h : History) :
  exists added,
    fst (Structured.route json_loads world query h) = h ++ added /\
    calls WebAgent added = 0 /\ calls Validator added = 1 /\ calls Team added <= 1.
Proof.
  destruct (route_structure json_loads world query h)
    as [[e [_ R]] | [[r [v [_ [_ [_ R]]]]] | [r [entries [prompt [_ [_ [_ R]]]]]]]];
    rewrite R; unfold Structured.validated; cbn [fst]; rewrite <- ?app_assoc;
    eexists; (split; [reflexivity|]); repeat split; count_calls.
Qed.

Lemma structured_turn_added (query : string) (h : History) :
  exists added,
    fst (Structured.turn json_loads world query h) = h ++ added /\
    calls WebAgent added = 0 /\ calls Validator added = 1 /\ calls Team added <= 1.
Proof.
  rewrite structured_turn_cases.
  destruct (structured_route_added query (h ++ [Print (nl +:+ "🔎 Processing: " +:+ query)]))
    as [added [F [W [V T]]]].
  destruct (Structured.route json_loads world query _) as [h1 [response|e]];
    cbn [fst] in F; subst h1; [|destruct (exn_is_exception e)]; cbn [fst];
    rewrite <- ?app_assoc; eexists; (split; [reflexivity|]); repeat split; count_calls.
Qed.

Lemma earlier_route_added (query : string) (h : History) :
  exists added,
    fst (Earlier.route world query h) = h ++ added /\
    calls WebAgent added = 0 /\ calls Validator added = 1 /\ calls Team added <= 1.
Proof.
  unfold Earlier.route, bind, print, call.
  destruct (world _ Validator _) as [r|e]; cbn [fst]; rewrite <- ?app_assoc;
    eexists; (split; [reflexivity|]); repeat split; count_calls.
Qed.

Lemma earlier_turn_added (query : string) (h : History) :
  exists added,
    fst (Earlier.turn world query h) = h ++ added /\
    calls WebAgent added = 0 /\ calls Validator added = 1 /\ calls Team added <= 1.
Proof.
  rewrite earlier_turn_cases.
  destruct (earlier_route_added query (h ++ [Print (nl +:+ "📊 Processing: " +:+ query)]))
    as [added [F [W [V T]]]].
  destruct (Earlier.route world query _) as [h1 [response|e]];
    cbn [fst] in F; subst h1; [|destruct (exn_is_exception e)]; cbn [fst];
    rewrite <- ?app_assoc; eexists; (split; [reflexivity|]); repeat split; count_calls.
Qed.

Lemma structured_loop_added (lines : list string) (h : History) :
  exists added,
    fst (Structured.validated_finance_team_loop json_loads world lines h) = h ++ added /\
    calls WebAgent added = 0 /\
    calls Team added <= calls Validator added /\
    calls Validator added <= length lines.
Proof.
  revert h. induction lines as [|line rest IH]; intros h.
  - exists []. cbn. rewrite app_nil_r. repeat split; count_calls.
  - rewrite structured_loop_cons. cbn [length].
    destruct (one_of (lower line) _).
    { eexists. cbn [fst]. split; [reflexivity|]. repeat split; count_calls. }
    destruct (String.eqb _ _).
    { destruct (IH (h ++ [Input "Ask the Validated Finance Team: " line]))
        as [added [F [W [T V]]]].
      rewrite F, <- app_assoc. eexists. split; [reflexivity|]. repeat split; count_calls. }
    destruct (structured_turn_added line (h ++ [Input "Ask the Validated Finance Team: " line]))
      as [one [F1 [W1 [V1 T1]]]].
    destruct (Structured.turn json_loads world line _) as [h1 [[]|e]];
      cbn [fst] in F1; subst h1.
    + destruct (IH ((h ++ [Input "Ask the Validated Finance Team: " line]) ++ one))
        as [added [F [W [T V]]]].
      rewrite F, <- !app_assoc. eexists. split; [reflexivity|]. repeat split; count_calls.
    + cbn [fst]. rewrite <- app_assoc. eexists. split; [reflexivity|].
      repeat split; count_calls.
Qed.

Lemma earlier_loop_added (lines : list string) (h : History) :
  exists added,
    fst (Earlier.validated_finance_team_loop world lines h) = h ++ added /\
    calls WebAgent added = 0 /\
    calls Team added <= calls Validator added /\
    calls Validator added <= length lines.
Proof.
  revert h. induction lines as [|line rest IH]; intros h.
  - exists []. cbn. rewrite app_nil_r. repeat split; count_calls.
  - rewrite earlier_loop_cons. cbn [length].
    destruct (one_of (lower line) _).
    { eexists. cbn [fst]. split; [reflexivity|]. repeat split; count_calls. }
    destruct (String.eqb _ _).
    { destruct (IH (h ++ [Input "💰 Ask the Validated Finance Team: " line]))
        as [added [F [W [T V]]]].
      rewrite F, <- app_assoc. eexists. split; [reflexivity|]. repeat split; count_calls. }
    destruct (earlier_turn_added line (h ++ [Input "💰 Ask the Validated Finance Team: " line]))
      as [one [F1 [W1 [V1 T1]]]].
    destruct (Earlier.turn world line _) as [h1 [[]|e]];
      cbn [fst] in F1; subst h1.
    + destruct (IH ((h ++ [Input "💰 Ask the Validated Finance Team: " line]) ++ one))
        as [added [F [W [T V]]]].
      rewrite F, <- !app_assoc. eexists. split; [reflexivity|]. repeat split; count_calls.
    + cbn [fst]. rewrite <- app_assoc. eexists. split; [reflexivity|].
      repeat split; count_calls.
Qed.

(** X16.  In the loops of the two validated teams the validator is called
    at most once per line typed, the team is never called more often than
    the validator, and the research agent is never called. *)
Theorem validated_loops_calls (lines : list string) (h : History) :
  (exists added,
     fst (Structured.validated_finance_team_loop json_loads world lines h) = h ++ added /\
     calls WebAgent added = 0 /\
     calls Team added <= calls Validator added /\
     calls Validator added <= length lines) /\
  (exists added,
     fst (Earlier.validated_finance_team_loop world lines h) = h ++ added /\
     calls WebAgent added = 0 /\
     calls Team added <= calls Validator added /\
     calls Validator added <= length lines).
Proof.
  split.
  - apply structured_loop_added.
  - apply earlier_loop_added.
Qed.

Lemma simple_route_added (query : string) (h : History) :
  exists added,
    fst (Simple.route world query h) = h ++ added /\
    calls Validator added = 0 /\ calls WebAgent added <= 1 /\ calls Team added <= 1.
Proof.
  destruct (route_history world query h) as [[_ E] | [_ [E|E]]]; rewrite E;
    eexists; (split; [reflexivity|]); repeat split; count_calls.
Qed.

(** X17.  In the loop of [main.py] the research agent and the team are each
    called at most once per line typed, and the validator is never
    called. *)
Theorem simple_loop_calls (lines : list string) (h : History) :
  exists added,
    fst (Simple.finance_team_loop world lines h) = h ++ added /\
    calls Validator added = 0 /\
    calls WebAgent added <= length lines /\
    calls Team added <= length lines.
Proof.
  revert h. induction lines as [|line rest IH]; intros h.
  - exists []. cbn. rewrite app_nil_r. repeat split; count_calls.
  - rewrite simple_loop_cons. cbn [length].
    destruct (one_of (lower line) _).
    { eexists. cbn [fst]. split; [reflexivity|]. repeat split; count_calls. }
    destruct (simple_route_added line (h ++ [Input "😎 User : " line]))
      as [one [F1 [V1 [W1 T1]]]].
    destruct (Simple.route world line _) as [h1 [response|e]]; cbn [fst] in F1; subst h1.
    + destruct (IH (((h ++ [Input "😎 User : " line]) ++ one) ++
                    [Print (nl +:+ "🧠 Response:" +:+ nl +:+ py_str response +:+ nl)]))
        as [added [F [V [W T]]]].
      rewrite F, <- !app_assoc. eexists. split; [reflexivity|]. repeat split; count_calls.
    + cbn [fst]. rewrite <- app_assoc. eexists. split; [reflexivity|].
      repeat split; count_calls.
Qed.

End LoopCalls.

Section LoopLines.

Import Scenario.

Variable json_loads : string -> option PyVal.
Variable world : Oracle.

(** X18.  In the loop of the earlier validated team, too, a line that
    lower-cases to exit, quit or bye ends the loop with the farewell and
    nothing else, and a line that is empty or all white space is passed
    over: nothing is printed, no collaborator is called. *)
Theorem earlier_loop_tokens_and_blanks (line : string) (rest : list string) (h : History) :
  (In (lower line) ["exit"; "quit"; "bye"] ->
     Earlier.validated_finance_team_loop world (line :: rest) h =
       (h ++ [Input "💰 Ask the Validated Finance Team: " line;
              Print "👋 Thanks for using Validated Finance Team!"],
        Ok Exited)) /\
  (strip line = EmptyString ->
     Earlier.validated_finance_team_loop world (line :: rest) h =
       Earlier.validated_finance_team_loop world rest
         (h ++ [Input "💰 Ask the Validated Finance Team: " line])).
Proof.
  rewrite earlier_loop_cons. split.
  - intros T. apply one_of_spec in T. now rewrite T.
  - intros B.
    destruct (one_of (lower line) ["exit"; "quit"; "bye"]) eqn:O.
    + apply one_of_spec, token_not_blank in O. contradiction.
    + now rewrite B.
Qed.

Lemma strip_eqb_false (line : string) :
  strip line <> EmptyString -> String.eqb (strip line) EmptyString = false.
Proof.
  intros N. destruct (String.eqb_spec (strip line) EmptyString); [contradiction | reflexivity].
Qed.

End LoopLines.

(** ** Start-up *)

Section Startup.

Variable json_loads : string -> option PyVal.
Variable world : Oracle.

(** X20.  A stored session is continued only when the user declines a new
    one and the storage holds at least one: it is then the first stored
    one.  In every other case, an empty storage after a decline included,
    the session is the one the team allocates.  Each of the three commands
    prints its greeting and exactly one session line before the first
    prompt, and calls no collaborator before the loop. *)
Theorem startup_session_line (new : bool) (existing_sessions : list string)
    (team_session_id : PyVal) (lines : list string) (h : History) :
  let chosen := Simple.select_session new existing_sessions in
  let session_line (started continuing : string) :=
    match chosen with
    | Some session_id => continuing +:+ session_id +:+ nl
    | None => started +:+ py_str team_session_id +:+ nl
    end in
  (forall s, chosen = Some s <->
             new = false /\ exists others, existing_sessions = s :: others) /\
  Simple.finance_team world new existing_sessions team_session_id lines h =
    Simple.finance_team_loop world lines
      (h ++ [Print "You are about to chat with the Finance Team!";
             Print (session_line "Started new Session: " "Continuing Session: ")]) /\
  Structured.validated_finance_team json_loads world new existing_sessions
      team_session_id lines h =
    Structured.validated_finance_team_loop json_loads world lines
      (h ++ [Print "✅ Validated Finance Team Ready!";
             Print "Features: News fact-checking + Financial analysis";
             Print (session_line "Started New Session: " "Continuing Session: ");
             Print "💡 Example queries:";
             Print "  • 'Impact of Tesla recall on stock price this week'";
             Print "  • 'Fed rate hike rumors impact on tech stocks'";
             Print "  • 'Nvidia AI chip shortage causing stock surge'";
             Print ("  • 'Apple earnings beat expectations last quarter'" +:+ nl)]) /\
  Earlier.validated_finance_team world new existing_sessions team_session_id lines h =
    Earlier.validated_finance_team_loop world lines
      (h ++ [Print "🚀 Validated Finance Team Ready!";
             Print "📋 Features: News fact-checking + Financial analysis";
             Print (session_line "📝 Started New Session: " "📂 Continuing Session: ");
             Print "💡 Example queries:";
             Print "  • 'Impact of Trump attacking Venezuela on banking stocks'";
             Print "  • 'Tesla recall affecting stock price this week'";
             Print "  • 'Fed rate hike rumors impact on tech stocks'";
             Print "  • 'Nvidia AI chip shortage causing stock surge'";
             Print ("  • 'Apple earnings beat expectations last quarter'" +:+ nl)]).
Proof.
  intros chosen session_line. split; [|split; [|split]].
  - intros s. unfold chosen, Simple.select_session.
    destruct new; simpl.
    + split; [discriminate | intros [E _]; discriminate].
    + destruct existing_sessions as [|first others].
      * split; [discriminate | intros [_ [o E]]; discriminate].
      * split.
        -- intros E. injection E as <-. eauto.
        -- intros [_ [o E]]. now injection E as <- _.
  - unfold Simple.finance_team. fold chosen. unfold session_line.
    destruct chosen; unfold bind, print; cbn [fst snd]; now rewrite <- !app_assoc.
  - unfold Structured.validated_finance_team. fold chosen. unfold session_line.
    destruct chosen; unfold bind, print; cbn [fst snd]; now rewrite <- !app_assoc.
  - unfold Earlier.validated_finance_team. fold chosen. unfold session_line.
    destruct chosen; unfold bind, print; cbn [fst snd]; now rewrite <- !app_assoc.
Qed.

End Startup.

Section MoreRuns.

Import Scenario.

(** The user declines a new session and nothing is stored: the session the
    team allocates is announced as new. *)
Lemma startup_session_line_witness :
  Simple.finance_team (answering "{}") false [] (PyStr "s-42") ["quit"] [] =
    ([Print "You are about to chat with the Finance Team!";
      Print ("Started new Session: s-42" +:+ nl);
      Input "😎 User : " "quit";
      Print "👋 Exiting Finance Team."],
     Ok Exited).
Proof.
  rewrite (proj1 (proj2 (startup_session_line Json.loads (answering "{}") false []
                           (PyStr "s-42") ["quit"] []))).
  reflexivity.
Defined.

Lemma earlier_loop_tokens_and_blanks_witness :
  Earlier.validated_finance_team_loop (answering "{}") ["  "; "Bye"; "x"] [] =
    ([Input "💰 Ask the Validated Finance Team: " "  ";
      Input "💰 Ask the Validated Finance Team: " "Bye";
      Print "👋 Thanks for using Validated Finance Team!"],
     Ok Exited).
Proof.
  rewrite (proj2 (earlier_loop_tokens_and_blanks (answering "{}") "  " ["Bye"; "x"] [])
             eq_refl).
  exact (proj1 (earlier_loop_tokens_and_blanks (answering "{}") "Bye" ["x"]
                  ([] ++ [Input "💰 Ask the Validated Finance Team: " "  "]))
           (or_intror (or_intror (or_introl eq_refl)))).
Defined.

End MoreRuns.

(** ** What the validated router hands back *)

Section RoutedText.

Import Structured Scenario.

Variable json_loads : string -> option PyVal.
Variable world : Oracle.

Lemma presented_text_shape (s : string) :
  lstrip (present_text (strip s)) = present_text (strip s) /\
  List.NoDup (split blank_line (present_text (strip s))).
Proof.
  split.
  - destruct (strip_head s) as [E | [c [t [E C]]]]; rewrite E; [reflexivity|].
    destruct (present_text_head c t C) as [t' ->]. simpl. now rewrite C.
  - rewrite present_text_segments. apply first_occurrences_NoDup.
Qed.

(** X21.  A text [route] returns went through the presenter after the team
    call: the team was called once, and the text neither starts with white
    space nor holds a segment twice. *)
Theorem route_returns_presented (query : string) (h : History) (out : string) :
  snd (route json_loads world query h) = Ok out ->
  (exists prompt team_response,
      fst (route json_loads world query h) = validated h query ++ [Call Team prompt] /\
      world (validated h query) Team prompt = Ok team_response /\
      present_response team_response = Ok out) /\
  lstrip out = out /\
  List.NoDup (split blank_line out).
Proof.
  intros R.
  destruct (route_structure json_loads world query h)
    as [[e [_ E]] | [[r [v [_ [_ [_ E]]]]] | [r [entries [prompt [_ [_ [_ E]]]]]]]];
    rewrite E in R |- *; cbn [fst snd] in *; try discriminate.
  destruct (world (validated h query) Team prompt) as [team_response|e] eqn:T;
    [|discriminate].
  split; [now exists prompt, team_response|].
  apply present_response_stripped in R. destruct R as [s ->].
  apply presented_text_shape.
Qed.

End RoutedText.

Section RoutedTextRun.

Import Structured Scenario.

Lemma route_returns_presented_witness :
  lstrip "Report." = "Report." /\ List.NoDup (split blank_line "Report.").
Proof.
  exact (proj2 (route_returns_presented Json.loads (answering "{}") "Tesla recall" []
                  "Report." eq_refl)).
Defined.

End RoutedTextRun.

(** ** The validated loops on a console that may refuse a text *)

Section Consoles.

Variable console : Console.
Variable json_loads : string -> option PyVal.
Variable world : Oracle.

Lemma bind_ext {A B : Type} (m m' : M A) (k k' : A -> M B) (h : History) :
  m h = m' h -> (forall a h', k a h' = k' a h') -> bind m k h = bind m' k' h.
Proof.
  intros E K. unfold bind. rewrite E. destruct (m' h) as [h' [a|e]]; auto.
Qed.

Lemma try_except_ext {A : Type} (body body' : M A) (handler handler' : PyExn -> M A)
    (h : History) :
  body h = body' h -> (forall e h', handler e h' = handler' e h') ->
  try_except body handler h = try_except body' handler' h.
Proof.
  intros E K. unfold try_except. rewrite E. destruct (body' h) as [h' [a|e]]; auto.
  destruct (exn_is_exception e); auto.
Qed.

Lemma print_on_accepted (text : string) (h : History) :
  console text = None -> print_on console text h = print text h.
Proof.
  intros C. unfold print_on, print. now rewrite C.
Qed.

Hypothesis accepts_all : forall text, console text = None.

(** A console that refuses nothing gives the runs of the sections above. *)
Lemma structured_route_on_accepted (query : string) (h : History) :
  Structured.route_on console json_loads world query h =
  Structured.route json_loads world query h.
Proof.
  unfold Structured.route_on, Structured.route.
  apply bind_ext; [now apply print_on_accepted|]. intros _ h1.
  apply bind_ext; [reflexivity|]. intros r h2.
  apply bind_ext; [now apply print_on_accepted|]. reflexivity.
Qed.

Lemma structured_turn_on_accepted (query : string) (h : History) :
  Structured.turn_on console json_loads world query h =
  Structured.turn json_loads world query h.
Proof.
  unfold Structured.turn_on, Structured.turn.
  apply try_except_ext.
  - apply bind_ext; [now apply print_on_accepted|]. intros _ h1.
    apply bind_ext; [apply structured_route_on_accepted|]. intros response h2.
    apply bind_ext; [now apply print_on_accepted|]. intros _ h3.
    now apply print_on_accepted.
  - intros e h1. apply bind_ext; [now apply print_on_accepted|]. intros _ h2.
    now apply print_on_accepted.
Qed.

Lemma structured_loop_on_accepted (lines : list string) (h : History) :
  Structured.validated_finance_team_loop_on console json_loads world lines h =
  Structured.validated_finance_team_loop json_loads world lines h.
Proof.
  revert h. induction lines as [|line rest IH]; intros h; [reflexivity|].
  cbn [Structured.validated_finance_team_loop_on Structured.validated_finance_team_loop].
  apply bind_ext; [reflexivity|]. intros user_query h1.
  destruct (decide _).
  - apply bind_ext; [now apply print_on_accepted | reflexivity].
  - destruct (String.eqb _ _); [apply IH|].
    apply bind_ext; [apply structured_turn_on_accepted | intros; apply IH].
Qed.

Lemma earlier_route_on_accepted (query : string) (h : History) :
  Earlier.route_on console world query h = Earlier.route world query h.
Proof.
  unfold Earlier.route_on, Earlier.route.
  apply bind_ext; [now apply print_on_accepted|]. intros _ h1.
  apply bind_ext; [reflexivity|]. intros r h2.
  apply bind_ext; [now apply print_on_accepted|]. reflexivity.
Qed.

Lemma earlier_turn_on_accepted (query : string) (h : History) :
  Earlier.turn_on console world query h = Earlier.turn world query h.
Proof.
  unfold Earlier.turn_on, Earlier.turn.
  apply try_except_ext.
  - apply bind_ext; [now apply print_on_accepted|]. intros _ h1.
    apply bind_ext; [apply earlier_route_on_accepted|]. intros response h2.
    apply bind_ext; [now apply print_on_accepted|]. intros _ h3.
    now apply print_on_accepted.
  - intros e h1. apply bind_ext; [now apply print_on_accepted|]. intros _ h2.
    now apply print_on_accepted.
Qed.

Lemma earlier_loop_on_accepted (lines : list string) (h : History) :
  Earlier.validated_finance_team_loop_on console world lines h =
  Earlier.validated_finance_team_loop world lines h.
Proof.
  revert h. induction lines as [|line rest IH]; intros h; [reflexivity|].
  cbn [Earlier.validated_finance_team_loop_on Earlier.validated_finance_team_loop].
  apply bind_ext; [reflexivity|]. intros user_query h1.
  destruct (decide _).
  - apply bind_ext; [now apply print_on_accepted | reflexivity].
  - destruct (String.eqb _ _); [apply IH|].
    apply bind_ext; [apply earlier_turn_on_accepted | intros; apply IH].
Qed.

End Consoles.

Section ConsoleHistories.

Variable console : Console.
Variable json_loads : string -> option PyVal.
Variable world : Oracle.

Lemma grows_ret {A : Type} (a : A) : grows (ret a).
Proof.
  intros h. exists []. simpl. now rewrite app_nil_r.
Qed.

Lemma grows_lift {A : Type} (r : Res A) : grows (lift r).
Proof.
  intros h. exists []. unfold lift. simpl. now rewrite app_nil_r.
Qed.

Lemma grows_print_on (text : string) : grows (print_on console text).
Proof.
  intros h. unfold print_on. destruct (console text).
  - exists []. simpl. now rewrite app_nil_r.
  - now exists [Print text].
Qed.

Lemma grows_call (callee : Callee) (arg : string) : grows (call world callee arg).
Proof.
  intros h. now exists [Call callee arg].
Qed.

Lemma grows_input (prompt line : string) : grows (input prompt line).
Proof.
  intros h. now exists [Input prompt line].
Qed.

(** What a computation has added stays when another one follows. *)
Lemma bind_after {A B : Type} (m : M A) (k : A -> M B) (h before : History) :
  (exists added, fst (m h) = before ++ added) ->
  (forall a, grows (k a)) ->
  exists added, fst (bind m k h) = before ++ added.
Proof.
  intros [added E] K. unfold bind. destruct (m h) as [h1 [a|e]]; simpl in E; subst h1.
  - destruct (K a (before ++ added)) as [more F]. exists (added ++ more).
    now rewrite F, app_assoc.
  - now exists added.
Qed.

Lemma try_after {A : Type} (body : M A) (handler : PyExn -> M A) (h before : History) :
  (exists added, fst (body h) = before ++ added) ->
  (forall e, grows (handler e)) ->
  exists added, fst (try_except body handler h) = before ++ added.
Proof.
  intros [added E] K. unfold try_except.
  destruct (body h) as [h1 [a|e]]; simpl in E; subst h1.
  - now exists added.
  - destruct (exn_is_exception e); [|now exists added].
    destruct (K e (before ++ added)) as [more F]. exists (added ++ more).
    now rewrite F, app_assoc.
Qed.

Lemma after_assoc {A : Type} (m : M A) (h before extra : History) :
  (exists added, fst (m h) = (before ++ extra) ++ added) ->
  exists added, fst (m h) = before ++ extra ++ added.
Proof.
  intros [added E]. exists added. now rewrite E, app_assoc.
Qed.

Lemma grows_bind {A B : Type} (m : M A) (k : A -> M B) :
  grows m -> (forall a, grows (k a)) -> grows (bind m k).
Proof.
  intros G K h. apply bind_after; [apply G | exact K].
Qed.

Lemma grows_try {A : Type} (body : M A) (handler : PyExn -> M A) :
  grows body -> (forall e, grows (handler e)) -> grows (try_except body handler).
Proof.
  intros G K h. apply try_after; [apply G | exact K].
Qed.

Lemma grows_structured_route_on (query : string) :
  grows (Structured.route_on console json_loads world query).
Proof.
  unfold Structured.route_on. cbv zeta.
  repeat (first [ apply grows_print_on | apply grows_lift | apply grows_call
                | apply grows_bind | intros ? ]).
Qed.

Lemma grows_handler (e : PyExn) :
  grows (print_on console ("❌ Error: " +:+ exn_str e) ;;;
         print_on console ("Please try again with a different query." +:+ nl)).
Proof.
  apply grows_bind; [apply grows_print_on|]. intros _. apply grows_print_on.
Qed.

Lemma grows_structured_turn_on (query : string) :
  grows (Structured.turn_on console json_loads world query).
Proof.
  unfold Structured.turn_on. apply grows_try; [|apply grows_handler].
  apply grows_bind; [apply grows_print_on|]. intros _.
  apply grows_bind; [apply grows_structured_route_on|]. intros response.
  apply grows_bind; [apply grows_print_on|]. intros _. apply grows_print_on.
Qed.

Lemma grows_structured_loop_on (lines : list string) :
  grows (Structured.validated_finance_team_loop_on console json_loads world lines).
Proof.
  induction lines as [|line rest IH]; [apply grows_ret|].
  cbn [Structured.validated_finance_team_loop_on].
  apply grows_bind; [apply grows_input|]. intros user_query.
  destruct (decide _).
  - apply grows_bind; [apply grows_print_on|]. intros _. apply grows_ret.
  - destruct (String.eqb _ _); [exact IH|].
    apply grows_bind; [apply grows_structured_turn_on|]. intros _. exact IH.
Qed.

Lemma grows_earlier_route_on (query : string) :
  grows (Earlier.route_on console world query).
Proof.
  unfold Earlier.route_on.
  apply grows_bind; [apply grows_print_on|]. intros _.
  apply grows_bind; [apply grows_call|]. intros validation_result.
  apply grows_bind; [apply grows_print_on|]. intros _. apply grows_call.
Qed.

Lemma grows_earlier_turn_on (query : string) :
  grows (Earlier.turn_on console world query).
Proof.
  unfold Earlier.turn_on. apply grows_try; [|apply grows_handler].
  apply grows_bind; [apply grows_print_on|]. intros _.
  apply grows_bind; [apply grows_earlier_route_on|]. intros response.
  apply grows_bind; [apply grows_print_on|]. intros _. apply grows_print_on.
Qed.

Lemma grows_earlier_loop_on (lines : list string) :
  grows (Earlier.validated_finance_team_loop_on console world lines).
Proof.
  induction lines as [|line rest IH]; [apply grows_ret|].
  cbn [Earlier.validated_finance_team_loop_on].
  apply grows_bind; [apply grows_input|]. intros user_query.
  destruct (decide _).
  - apply grows_bind; [apply grows_print_on|]. intros _. apply grows_ret.
  - destruct (String.eqb _ _); [exact IH|].
    apply grows_bind; [apply grows_earlier_turn_on|]. intros _. exact IH.
Qed.

(** One line that is no token and is not blank: the loop reads it and
    runs one turn on it. *)
Lemma structured_loop_on_turn (line : string) (rest : list string) (h : History) :
  one_of (lower line) ["exit"; "quit"; "bye"] = false ->
  strip line <> EmptyString ->
  Structured.validated_finance_team_loop_on console json_loads world (line :: rest) h =
    (Structured.turn_on console json_loads world line ;;;
     Structured.validated_finance_team_loop_on console json_loads world rest)
      (h ++ [Input "Ask the Validated Finance Team: " line]).
Proof.
  intros O B. cbn [Structured.validated_finance_team_loop_on].
  unfold bind at 1. unfold input. cbn iota beta.
  destruct (decide _) as [T|T].
  - apply reserved_one_of in T. congruence.
  - now rewrite (strip_eqb_false _ B).
Qed.

Lemma earlier_loop_on_turn (line : string) (rest : list string) (h : History) :
  one_of (lower line) ["exit"; "quit"; "bye"] = false ->
  strip line <> EmptyString ->
  Earlier.validated_finance_team_loop_on console world (line :: rest) h =
    (Earlier.turn_on console world line ;;;
     Earlier.validated_finance_team_loop_on console world rest)
      (h ++ [Input "💰 Ask the Validated Finance Team: " line]).
Proof.
  intros O B. cbn [Earlier.validated_finance_team_loop_on].
  unfold bind at 1. unfold input. cbn iota beta.
  destruct (decide _) as [T|T].
  - apply reserved_one_of in T. congruence.
  - now rewrite (strip_eqb_false _ B).
Qed.

End ConsoleHistories.

(** ** What a refusing console does to a turn *)

(** X14.  The [print] of the two validated commands is the one of [rich],
    which can raise on the text it is given.  When the console accepts
    every text and the collaborators fail only with instances of
    [Exception], no failure ends a validated loop: it ends only by a typed
    token, or waits for the next line.  The handler does not protect
    against the console itself: when the console refuses the line's
    [Processing:] text with an instance of [Exception] and then refuses the
    handler's [Error:] text, the loop ends with the second exception right
    after reading the line, no collaborator having been called and the lines
    that follow never read. *)
Theorem validated_loops_survive (console : Console) (json_loads : string -> option PyVal)
    (world : Oracle) (line : string) (lines : list string) (h : History) :
  ((forall text, console text = None) ->
   (forall h' callee arg e, world h' callee arg = Raise e -> exn_is_exception e = true) ->
   let ending :=
     if existsb (fun line => one_of (lower line) ["exit"; "quit"; "bye"]) lines
     then Exited else AwaitingInput in
   snd (Structured.validated_finance_team_loop_on console json_loads world lines h) = Ok ending /\
   snd (Earlier.validated_finance_team_loop_on console world lines h) = Ok ending) /\
  (forall e e',
     one_of (lower line) ["exit"; "quit"; "bye"] = false ->
     strip line <> EmptyString ->
     console (nl +:+ "🔎 Processing: " +:+ line) = Some e ->
     exn_is_exception e = true ->
     console ("❌ Error: " +:+ exn_str e) = Some e' ->
     Structured.validated_finance_team_loop_on console json_loads world (line :: lines) h =
       (h ++ [Input "Ask the Validated Finance Team: " line], Raise e')) /\
  (forall e e',
     one_of (lower line) ["exit"; "quit"; "bye"] = false ->
     strip line <> EmptyString ->
     console (nl +:+ "📊 Processing: " +:+ line) = Some e ->
     exn_is_exception e = true ->
     console ("❌ Error: " +:+ exn_str e) = Some e' ->
     Earlier.validated_finance_team_loop_on console world (line :: lines) h =
       (h ++ [Input "💰 Ask the Validated Finance Team: " line], Raise e')).
Proof.
  split; [|split].
  - intros A W. cbv zeta.
    rewrite structured_loop_on_accepted, earlier_loop_on_accepted by exact A.
    now apply plain_loops_survive.
  - intros e e' O B P E P'.
    rewrite structured_loop_on_turn by assumption.
    unfold bind at 1. unfold Structured.turn_on, try_except.
    unfold bind at 1. unfold print_on at 1. rewrite P.
    rewrite E. unfold bind at 1. unfold print_on at 1. now rewrite P'.
  - intros e e' O B P E P'.
    rewrite earlier_loop_on_turn by assumption.
    unfold bind at 1. unfold Earlier.turn_on, try_except.
    unfold bind at 1. unfold print_on at 1. rewrite P.
    rewrite E. unfold bind at 1. unfold print_on at 1. now rewrite P'.
Qed.

Lemma validated_loops_survive_witness :
  snd (Structured.validated_finance_team_loop_on accepting Json.loads
         (Scenario.scripted (Ok PyNone) (Raise Scenario.quota_error) (Ok (PyStr "{}")))
         ["Tesla recall"; "bye"; "more"] []) = Ok Exited /\
  Structured.validated_finance_team_loop_on Scenario.strict_console Json.loads
    (Scenario.answering "{}") ["[/b] news"; "Tesla recall"] [] =
    ([Input "Ask the Validated Finance Team: " "[/b] news"], Raise Scenario.markup_error) /\
  Earlier.validated_finance_team_loop_on Scenario.strict_console
    (Scenario.answering "{}") ["[/b] news"; "Tesla recall"] [] =
    ([Input "💰 Ask the Validated Finance Team: " "[/b] news"], Raise Scenario.markup_error).
Proof.
  split; [|split].
  - apply (proj1 (validated_loops_survive accepting Json.loads
             (Scenario.scripted (Ok PyNone) (Raise Scenario.quota_error) (Ok (PyStr "{}")))
             EmptyString ["Tesla recall"; "bye"; "more"] [])).
    + reflexivity.
    + intros h' callee arg e. destruct callee; simpl; intros R; try discriminate R.
      now injection R as <-.
  - apply (proj1 (proj2 (validated_loops_survive Scenario.strict_console Json.loads
             (Scenario.answering "{}") "[/b] news" ["Tesla recall"] []))
             Scenario.markup_error Scenario.markup_error);
      first [ reflexivity | discriminate ].
  - apply (proj2 (proj2 (validated_loops_survive Scenario.strict_console Json.loads
             (Scenario.answering "{}") "[/b] news" ["Tesla recall"] []))
             Scenario.markup_error Scenario.markup_error);
      first [ reflexivity | discriminate ].
Defined.

(** X19.  A typed line of ASCII characters that is no token and is not
    blank reaches the validator as typed, neither trimmed nor lower-cased,
    provided the console accepts the two progress texts printed before the
    call: the history then goes on with the prompt and the line, the
    [Processing:] text, the [Validating] text and the validator call on the
    request built from the line, whatever happens afterwards. *)
Theorem validated_loops_ask_line_as_typed (console : Console)
    (json_loads : string -> option PyVal) (world : Oracle)
    (line : string) (rest : list string) (h : History) :
  one_of (lower line) ["exit"; "quit"; "bye"] = false ->
  strip line <> EmptyString ->
  is_ascii line = true ->
  (console (nl +:+ "🔎 Processing: " +:+ line) = None ->
   console "Validating news claims..." = None ->
   exists added,
     fst (Structured.validated_finance_team_loop_on console json_loads world (line :: rest) h) =
       h ++ [Input "Ask the Validated Finance Team: " line;
             Print (nl +:+ "🔎 Processing: " +:+ line);
             Print "Validating news claims...";
             Call Validator
               ("Please fact-check this query and provide enhanced context in JSON: " +:+ line)]
         ++ added) /\
  (console (nl +:+ "📊 Processing: " +:+ line) = None ->
   console "🔍 Validating news claims..." = None ->
   exists added,
     fst (Earlier.validated_finance_team_loop_on console world (line :: rest) h) =
       h ++ [Input "💰 Ask the Validated Finance Team: " line;
             Print (nl +:+ "📊 Processing: " +:+ line);
             Print "🔍 Validating news claims...";
             Call Validator
               ("Please fact-check this query and provide enhanced context: " +:+ line)]
         ++ added).
Proof.
  intros O B _. split.
  - intros P V. rewrite structured_loop_on_turn by assumption.
    apply after_assoc.
    apply bind_after; [|intros _; apply grows_structured_loop_on].
    unfold Structured.turn_on. apply try_after; [|apply grows_handler].
    unfold bind at 1. unfold print_on at 1. rewrite P.
    apply bind_after;
      [|intros response; apply grows_bind; [apply grows_print_on|];
        intros _; apply grows_print_on].
    unfold Structured.route_on.
    unfold bind at 1. unfold print_on at 1. rewrite V.
    apply bind_after.
    + exists []. unfold call. cbn [fst]. rewrite app_nil_r, <- !app_assoc. reflexivity.
    + intros validation_result. cbv zeta.
      repeat (first [ apply grows_print_on | apply grows_lift | apply grows_call
                    | apply grows_bind | intros ? ]).
  - intros P V. rewrite earlier_loop_on_turn by assumption.
    apply after_assoc.
    apply bind_after; [|intros _; apply grows_earlier_loop_on].
    unfold Earlier.turn_on. apply try_after; [|apply grows_handler].
    unfold bind at 1. unfold print_on at 1. rewrite P.
    apply bind_after;
      [|intros response; apply grows_bind; [apply grows_print_on|];
        intros _; apply grows_print_on].
    unfold Earlier.route_on.
    unfold bind at 1. unfold print_on at 1. rewrite V.
    apply bind_after.
    + exists []. unfold call. cbn [fst]. rewrite app_nil_r, <- !app_assoc. reflexivity.
    + intros validation_result.
      apply grows_bind; [apply grows_print_on|]. intros _. apply grows_call.
Qed.

Lemma validated_loops_ask_line_as_typed_witness :
  exists added,
    fst (Structured.validated_finance_team_loop_on Scenario.strict_console Json.loads
           (Scenario.answering "{}") [" Exit "; "[/b]"] []) =
      [Input "Ask the Validated Finance Team: " " Exit ";
       Print (nl +:+ "🔎 Processing:  Exit ");
       Print "Validating news claims...";
       Call Validator
         "Please fact-check this query and provide enhanced context in JSON:  Exit "]
        ++ added.
Proof.
  apply (proj1 (validated_loops_ask_line_as_typed Scenario.strict_console Json.loads
                  (Scenario.answering "{}") " Exit " ["[/b]"] []
                  eq_refl ltac:(discriminate) eq_refl));
    reflexivity.
Defined.
